(** * Liveness verification server ([server.py]): a shallow embedding

    The Flask handlers of [server.py] are embedded as functions over an
    explicit world (the file store, the wall clock and a plan of I/O
    faults).  Exceptions are values; every handler is a total function
    from a request and a world to a response and a world.

    What belongs to Python and its libraries rather than to the
    repository is either taken as a parameter ([PyLib]: [json.loads],
    [json.dumps], [repr] of a string) or written out from the library's
    documented behaviour ([posixpath.normpath], werkzeug's [safe_join] and
    [send_from_directory], [FileStorage]).  Logging has no effect on
    responses or files and is left out, except that the expressions a log
    line evaluates are kept, since they can raise.

    The file has four parts: the model of the program; the vocabulary in
    which the properties are stated, with a sample library and sample
    worlds; the properties; and runs of the properties on the samples. *)

From Stdlib Require Import ZArith String Ascii List Bool Lia.
From Stdlib Require Import Strings.Byte.
From stdpp Require Import base gmap strings list fin_maps pretty.

Set Warnings "-register-all".
Local Open Scope string_scope.

(** ** JSON values, as [json.loads] produces them *)

(** A Python [float] is carried as the text Python prints for it. An
    object keeps its items in insertion order, as a [dict] does. *)
Inductive json : Type :=
| JNull
| JBool (b : bool)
| JInt (n : Z)
| JFloat (repr : string)
| JStr (s : string)
| JArr (items : list json)
| JObj (fields : list (string * json)).

(** ** Exceptions *)

Inductive exception : Type :=
| KeyError (key : string)
| TypeError (msg : string)
| AttributeError (msg : string)
| OSError (msg : string)
| JSONDecodeError (msg : string)
| RecursionError (msg : string)
| NotFound.

Inductive result (A : Type) : Type :=
| Ok (a : A)
| Raise (e : exception).
Arguments Ok {A} a.
Arguments Raise {A} e.

(** The library functions the handlers call and whose results they only
    pass on. [json_loads] raises [JSONDecodeError] on a malformed text. *)
Record PyLib : Type := {
  json_loads : string -> result json;
  json_dumps : json -> string;      (* json.dumps(v, indent=2) *)
  repr_str : string -> string       (* repr(s) for a str *)
}.

(** ** Strings *)

(** [s.startswith(p)] *)
Fixpoint starts_with (p s : string) : bool :=
  match p with
  | EmptyString => true
  | String a p' =>
      match s with
      | String b s' => Ascii.eqb a b && starts_with p' s'
      | EmptyString => false
      end
  end.

(** [needle in hay] for two [str]. *)
Fixpoint str_contains (needle hay : string) : bool :=
  starts_with needle hay ||
  match hay with
  | EmptyString => false
  | String _ hay' => str_contains needle hay'
  end.

Fixpoint join (sep : string) (parts : list string) : string :=
  match parts with
  | [] => ""
  | [p] => p
  | p :: ps => p +:+ sep +:+ join sep ps
  end.

(** [s.split('/')]: the pieces between the separators, never empty as a
    list. *)
Fixpoint split_slash (s : string) : list string :=
  match s with
  | EmptyString => [""]
  | String c s' =>
      if Ascii.eqb c "/" then "" :: split_slash s'
      else match split_slash s' with
           | piece :: pieces => String c piece :: pieces
           | [] => [String c ""]
           end
  end.

Fixpoint has_slash (s : string) : bool :=
  match s with
  | EmptyString => false
  | String c s' => Ascii.eqb c "/" || has_slash s'
  end.

(** ** Python operations on decoded values *)

Definition type_name (v : json) : string :=
  match v with
  | JNull => "NoneType"
  | JBool _ => "bool"
  | JInt _ => "int"
  | JFloat _ => "float"
  | JStr _ => "str"
  | JArr _ => "list"
  | JObj _ => "dict"
  end.

Definition dict_lookup (k : string) (fields : list (string * json)) : option json :=
  snd <$> List.find (fun kv => String.eqb k (fst kv)) fields.

Definition is_str (k : string) (v : json) : bool :=
  match v with
  | JStr s => String.eqb s k
  | _ => false
  end.

(** [k in v]: key membership on a dict, element membership on a list,
    substring on a str, [TypeError] on anything else (message of
    CPython 3.12). *)
Definition py_in (k : string) (v : json) : result bool :=
  match v with
  | JObj fields => Ok (existsb (fun kv => String.eqb k (fst kv)) fields)
  | JArr items => Ok (existsb (is_str k) items)
  | JStr s => Ok (str_contains k s)
  | _ => Raise (TypeError ("argument of type '" +:+ type_name v +:+ "' is not iterable"))
  end.

(** [v[k]] for a str key [k]. *)
Definition py_getitem (v : json) (k : string) : result json :=
  match v with
  | JObj fields =>
      match dict_lookup k fields with
      | Some x => Ok x
      | None => Raise (KeyError k)
      end
  | JArr _ => Raise (TypeError "list indices must be integers or slices, not str")
  | JStr _ => Raise (TypeError "string indices must be integers, not 'str'")
  | _ => Raise (TypeError ("'" +:+ type_name v +:+ "' object is not subscriptable"))
  end.

(** [v.get(k, default)]. *)
Definition py_get (v : json) (k : string) (dflt : json) : result json :=
  match v with
  | JObj fields => Ok (default dflt (dict_lookup k fields))
  | _ => Raise (AttributeError ("'" +:+ type_name v +:+ "' object has no attribute 'get'"))
  end.

(** [str(v)], as an f-string formats a value: a str is itself, anything
    else is its [repr]. *)
Fixpoint py_repr (lib : PyLib) (v : json) : string :=
  match v with
  | JNull => "None"
  | JBool true => "True"
  | JBool false => "False"
  | JInt n => pretty n
  | JFloat r => r
  | JStr s => repr_str lib s
  | JArr items => "[" +:+ join ", " (List.map (py_repr lib) items) +:+ "]"
  | JObj fields =>
      "{" +:+ join ", " (List.map (fun kv => let '(k, x) := kv in
                                   repr_str lib k +:+ ": " +:+ py_repr lib x) fields)
          +:+ "}"
  end.

Definition py_str (lib : PyLib) (v : json) : string :=
  match v with
  | JStr s => s
  | _ => py_repr lib v
  end.

Definition str_exc (lib : PyLib) (e : exception) : string :=
  match e with
  | KeyError k => repr_str lib k
  | TypeError m | AttributeError m | OSError m | JSONDecodeError m | RecursionError m => m
  | NotFound => "404 Not Found: The requested URL was not found on the server. If you entered the URL manually please check your spelling and try again."
  end.

(** ** Paths ([os.path] on POSIX) *)

Definition ends_with_slash (s : string) : bool :=
  match String.rev s with
  | String c _ => Ascii.eqb c "/"
  | EmptyString => false
  end.

(** [os.path.join(a, b)]. *)
Definition os_path_join (a b : string) : string :=
  if starts_with "/" b then b
  else if String.eqb a "" || ends_with_slash a then a +:+ b
  else a +:+ "/" +:+ b.

(** [os.path.basename(p)]: what follows the last separator. *)
Definition os_path_basename (p : string) : string :=
  List.last (split_slash p) "".

(** The directory a path is created in: what precedes the last separator
    (the working directory when there is none). *)
Definition parent_dir (p : string) : string :=
  join "/" (removelast (split_slash p)).

Definition normpath_step (initial_slashes : bool) (new_comps : list string)
    (comp : string) : list string :=
  if String.eqb comp "" || String.eqb comp "." then new_comps
  else if negb (String.eqb comp "..")
          || (negb initial_slashes && bool_decide (new_comps = []))
          || (negb (bool_decide (new_comps = []))
              && String.eqb (List.last new_comps "") "..")
       then new_comps ++ [comp]
       else removelast new_comps.

(** [posixpath.normpath(path)]. *)
Definition normpath (path : string) : string :=
  if String.eqb path "" then "."
  else
    let initial_slashes :=
      if starts_with "/" path then
        if starts_with "//" path && negb (starts_with "///" path) then 2 else 1
      else 0 in
    let comps := fold_left (normpath_step (negb (Nat.eqb initial_slashes 0)))
                           (split_slash path) [] in
    let path' := String.concat "" (repeat "/" initial_slashes) +:+ join "/" comps in
    if String.eqb path' "" then "." else path'.

(** werkzeug's [safe_join(directory, filename)] on POSIX: [None] for a
    name that would leave the directory. *)
Definition safe_join (directory filename : string) : option string :=
  let directory := if String.eqb directory "" then "." else directory in
  let filename := if String.eqb filename "" then filename else normpath filename in
  if starts_with "/" filename || String.eqb filename ".." || starts_with "../" filename
  then None
  else Some (os_path_join directory filename).

(** ** Time *)

Record datetime : Type := {
  year : N; month : N; day : N;
  hour : N; minute : N; second : N; microsecond : N
}.

Definition digit (n : N) : string :=
  String (ascii_of_N (48 + n mod 10)) "".
Definition pad2 (n : N) : string := digit (n / 10) +:+ digit n.
Definition pad4 (n : N) : string := digit (n / 1000) +:+ digit (n / 100) +:+ pad2 n.
Definition pad6 (n : N) : string :=
  digit (n / 100000) +:+ digit (n / 10000) +:+ pad4 n.

(** [t.strftime("%Y%m%d_%H%M%S")] *)
Definition strftime_stamp (t : datetime) : string :=
  pad4 (year t) +:+ pad2 (month t) +:+ pad2 (day t) +:+ "_" +:+
  pad2 (hour t) +:+ pad2 (minute t) +:+ pad2 (second t).

(** [t.strftime('%Y-%m-%d %H:%M:%S')] *)
Definition strftime_display (t : datetime) : string :=
  pad4 (year t) +:+ "-" +:+ pad2 (month t) +:+ "-" +:+ pad2 (day t) +:+ " " +:+
  pad2 (hour t) +:+ ":" +:+ pad2 (minute t) +:+ ":" +:+ pad2 (second t).

(** [t.isoformat()]: the microseconds are printed unless they are zero. *)
Definition isoformat (t : datetime) : string :=
  pad4 (year t) +:+ "-" +:+ pad2 (month t) +:+ "-" +:+ pad2 (day t) +:+ "T" +:+
  pad2 (hour t) +:+ ":" +:+ pad2 (minute t) +:+ ":" +:+ pad2 (second t) +:+
  (if N.eqb (microsecond t) 0 then "" else "." +:+ pad6 (microsecond t)).

(** ** The world: files, clock and I/O faults *)

(** The store maps a path, as the program hands it to the operating
    system, to what is there. Paths are not normalised: two spellings of
    one location are two keys. *)
Inductive node : Type :=
| File (content : list byte) (mtime : datetime)
| Directory.

(** [clock] gives the successive readings of the wall clock and [tick]
    counts the readings taken. [plan] schedules the outcome of the coming
    file-system calls: [Some msg] makes the next call raise [OSError msg]. *)
Record world : Type := World {
  store : gmap string node;
  clock : nat -> datetime;
  tick : nat;
  plan : list (option string)
}.

Definition set_store (st : gmap string node) (w : world) : world :=
  World st (clock w) (tick w) (plan w).

(** Computations that read and change the world and may raise. The world
    an exception leaves behind is kept: what was written stays written. *)
Definition M (A : Type) : Type := world -> result A * world.

Definition ret {A} (a : A) : M A := fun w => (Ok a, w).
Definition raise {A} (e : exception) : M A := fun w => (Raise e, w).
Definition lift {A} (r : result A) : M A := fun w => (r, w).

Definition bind {A B} (m : M A) (k : A -> M B) : M B :=
  fun w =>
    match m w with
    | (Ok a, w') => k a w'
    | (Raise e, w') => (Raise e, w')
    end.

(** [try: m  except Exception as e: h e] *)
Definition try_except {A} (m : M A) (h : exception -> M A) : M A :=
  fun w =>
    match m w with
    | (Ok a, w') => (Ok a, w')
    | (Raise e, w') => h e w'
    end.

Declare Scope py_scope.
Delimit Scope py_scope with py.
Notation "'let*' x ':=' c1 'in' c2" := (bind c1 (fun x => c2))
  (at level 10, x name, c1 at level 100, c2 at level 200) : py_scope.
Local Open Scope py_scope.

(** [datetime.now()] *)
Definition datetime_now : M datetime :=
  fun w => (Ok (clock w (tick w)), World (store w) (clock w) (S (tick w)) (plan w)).

Definition io_step : M unit :=
  fun w =>
    match plan w with
    | Some msg :: rest => (Raise (OSError msg), World (store w) (clock w) (tick w) rest)
    | None :: rest => (Ok tt, World (store w) (clock w) (tick w) rest)
    | [] => (Ok tt, w)
    end.

Definition is_dir (st : gmap string node) (p : string) : bool :=
  String.eqb p "" ||
  match st !! p with
  | Some Directory => true
  | _ => false
  end.

Definition is_file (st : gmap string node) (p : string) : bool :=
  match st !! p with
  | Some (File _ _) => true
  | _ => false
  end.

Section Handlers.

Context (lib : PyLib).

(** [open(path, 'w')]: creates or truncates the file. It fails when the
    call is scheduled to fail, when the directory of [path] is not there,
    or when [path] is a directory. *)
Definition fs_open_w (path : string) : M unit :=
  let* _ := io_step in
  fun w =>
    if negb (is_dir (store w) (parent_dir path)) then
      (Raise (OSError ("[Errno 2] No such file or directory: " +:+ repr_str lib path)), w)
    else
      match store w !! path with
      | Some Directory =>
          (Raise (OSError ("[Errno 21] Is a directory: " +:+ repr_str lib path)), w)
      | _ => (Ok tt, set_store (<[path := File [] (clock w (tick w))]> (store w)) w)
      end.

(** [f.write(data)] on the file opened at [path]. *)
Definition fs_write (path : string) (data : list byte) : M unit :=
  let* _ := io_step in
  fun w =>
    match store w !! path with
    | Some (File content _) =>
        (Ok tt, set_store (<[path := File (content ++ data) (clock w (tick w))]> (store w)) w)
    | _ => (Raise (OSError "[Errno 9] Bad file descriptor"), w)
    end.

Fixpoint strip_prefix (p s : string) : option string :=
  match p with
  | EmptyString => Some s
  | String a p' =>
      match s with
      | String b s' => if Ascii.eqb a b then strip_prefix p' s' else None
      | EmptyString => None
      end
  end.

(** The name under which [key] is an entry of directory [dir], if it is
    one. *)
Definition child_name (dir key : string) : option string :=
  match strip_prefix (dir +:+ "/") key with
  | Some n => if negb (String.eqb n "") && negb (has_slash n) then Some n else None
  | None => None
  end.

(** [os.listdir(dir)], in the order the directory yields its entries. *)
Definition os_listdir (dir : string) : M (list string) :=
  let* _ := io_step in
  fun w =>
    match store w !! dir with
    | Some Directory =>
        (Ok (omap (fun kv => child_name dir (fst kv)) (map_to_list (store w))), w)
    | Some (File _ _) =>
        (Raise (OSError ("[Errno 20] Not a directory: " +:+ repr_str lib dir)), w)
    | None =>
        (Raise (OSError ("[Errno 2] No such file or directory: " +:+ repr_str lib dir)), w)
    end.

(** ** Requests and responses *)

(** A stream of an uploaded file: its bytes and the read position. *)
Record Stream : Type := { data : list byte; pos : nat }.

Record FileStorage : Type := {
  filename : string;
  file_content_type : string;
  stream : Stream
}.

Record Request : Type := {
  method : string;
  content_type : option string;
  form : list (string * string);
  files : list (string * FileStorage)
}.

Inductive response : Type :=
| JsonResponse (status : nat) (body : json)       (* jsonify(body), status *)
| FileResponse (status : nat) (body : list byte)  (* the bytes of a served file *)
| TextResponse (status : nat) (body : string).

Definition multidict_get {A} (k : string) (d : list (string * A)) : option A :=
  snd <$> List.find (fun kv => String.eqb k (fst kv)) d.

(** [stream.read()]: everything from the position to the end. *)
Definition stream_read (s : Stream) : list byte * Stream :=
  (skipn (pos s) (data s), {| data := data s; pos := Nat.max (pos s) (length (data s)) |}).

Definition stream_seek (s : Stream) (offset : nat) : Stream :=
  {| data := data s; pos := offset |}.

(** [FileStorage.save(dst)]: opens [dst] for writing and copies the
    stream into it from the current position. *)
Definition file_save (s : Stream) (dst : string) : M unit :=
  let* _ := fs_open_w dst in
  fs_write dst (fst (stream_read s)).

(** Line 21. Lines 22-23 create the directory when the program starts;
    the properties below say where they need it to be there. *)
Definition UPLOAD_DIR : string := "uploads".

Definition nl : string := String (ascii_of_nat 10) "".

Definition error_body (msg : string) : json := JObj [("error", JStr msg)].

(** Runs a handler body and turns what escapes it into a response. *)
Definition handle (m : M response) (h : exception -> response)
  : world -> response * world :=
  fun w =>
    match m w with
    | (Ok r, w') => (r, w')
    | (Raise e, w') => (h e, w')
    end.

(** ** [save_to_txt_file] (lines 25-59) *)

(** Returns the path of the transcript, or [None] when anything in the
    body raised: the [except Exception] clause swallows it. What was
    written before the exception stays in the file. *)
Definition save_to_txt_file (device_data : json) (video_filename : string)
    (video_size : nat) (timestamp : string) : M (option string) :=
  try_except
    (let* device_id := lift (py_getitem device_data "device_id") in
     let txt_filename :=
       "device_data_" +:+ py_str lib device_id +:+ "_" +:+ timestamp +:+ ".txt" in
     let txt_filepath := os_path_join UPLOAD_DIR txt_filename in
     let* _ := fs_open_w txt_filepath in
     let f_write (s : string) := fs_write txt_filepath (list_byte_of_string s) in
     let* _ := f_write ("=== DEVICE VERIFICATION DATA ===" +:+ nl) in
     let* t1 := datetime_now in
     let* _ := f_write ("Timestamp: " +:+ strftime_display t1 +:+ nl) in
     let* t2 := datetime_now in
     let* _ := f_write ("Received At: " +:+ isoformat t2 +:+ nl) in
     let* _ := f_write (nl +:+ "--- DEVICE INFORMATION ---" +:+ nl) in
     let* v := lift (py_getitem device_data "device_id") in
     let* _ := f_write ("Device ID: " +:+ py_str lib v +:+ nl) in
     let* v := lift (py_getitem device_data "is_compromised") in
     let* _ := f_write ("Is Compromised: " +:+ py_str lib v +:+ nl) in
     let* v := lift (py_get device_data "platform" (JStr "unknown")) in
     let* _ := f_write ("Platform: " +:+ py_str lib v +:+ nl) in
     let* v := lift (py_getitem device_data "ip_address") in
     let* _ := f_write ("IP Address: " +:+ py_str lib v +:+ nl) in
     let* _ := f_write (nl +:+ "--- LOCATION DATA ---" +:+ nl) in
     let* gps := lift (py_getitem device_data "gps_location") in
     let* v := lift (py_getitem gps "latitude") in
     let* _ := f_write ("Latitude: " +:+ py_str lib v +:+ nl) in
     let* gps := lift (py_getitem device_data "gps_location") in
     let* v := lift (py_getitem gps "longitude") in
     let* _ := f_write ("Longitude: " +:+ py_str lib v +:+ nl) in
     let* _ := f_write (nl +:+ "--- VIDEO INFORMATION ---" +:+ nl) in
     let* _ := f_write ("Video Filename: " +:+ video_filename +:+ nl) in
     let* _ := f_write ("Video Size: " +:+ pretty video_size +:+ " bytes" +:+ nl) in
     let* v := lift (py_getitem device_data "device_id") in
     let* _ := f_write ("Video Saved As: mobile_liveness_" +:+ py_str lib v +:+ "_"
                        +:+ timestamp +:+ ".mp4" +:+ nl) in
     let* _ := f_write (nl +:+ "--- RAW JSON DATA ---" +:+ nl) in
     let* _ := f_write (json_dumps lib device_data) in
     ret (Some txt_filepath))
    (fun _ => ret None).

(** ** [verify_endpoint] (lines 61-151) *)

Definition required_fields : list string :=
  ["device_id"; "is_compromised"; "gps_location"; "ip_address"].

(** The loop of lines 90-93: the first field that is [not in device_data],
    if any; a [TypeError] when [in] does not apply to [device_data]. *)
Fixpoint check_required_fields (fields : list string) (device_data : json)
  : result (option string) :=
  match fields with
  | [] => Ok None
  | field :: rest =>
      match py_in field device_data with
      | Raise e => Raise e
      | Ok false => Ok (Some field)
      | Ok true => check_required_fields rest device_data
      end
  end.

(** Line 70: [not request.content_type or 'multipart/form-data' not in
    request.content_type], negated. *)
Definition content_type_ok (ct : option string) : bool :=
  match ct with
  | None => false
  | Some s => negb (String.eqb s "") && str_contains "multipart/form-data" s
  end.

(** Lines 116-131: measure the payload, rewind, stamp and save the video.
    Yields the size, the timestamp and the name the video was saved under. *)
Definition persist_video (device_data : json) (video_file : FileStorage)
  : M (nat * string * string) :=
  let '(video_data, stream1) := stream_read (stream video_file) in
  let video_size := length video_data in
  let stream2 := stream_seek stream1 0 in
  let* now := datetime_now in
  let timestamp := strftime_stamp now in
  let* device_id := lift (py_getitem device_data "device_id") in
  let video_filename :=
    "mobile_liveness_" +:+ py_str lib device_id +:+ "_" +:+ timestamp +:+ ".mp4" in
  let video_filepath := os_path_join UPLOAD_DIR video_filename in
  let* _ := file_save stream2 video_filepath in
  ret (video_size, timestamp, video_filename).

(** Lines 133-147: write the transcript and build the acknowledgment. *)
Definition acknowledge (device_data : json) (video_file : FileStorage)
    (saved : nat * string * string) : M response :=
  let '(video_size, timestamp, video_filename) := saved in
  let* txt_filepath :=
    save_to_txt_file device_data (filename video_file) video_size timestamp in
  let* received_at := datetime_now in
  let* device_id := lift (py_getitem device_data "device_id") in
  ret (JsonResponse 200 (JObj [
    ("status", JStr "received_ok");
    ("message", JStr "Successfully received both JSON data and video file from mobile");
    ("received_at", JStr (isoformat received_at));
    ("device_id", device_id);
    ("video_size", JInt (Z.of_nat video_size));
    ("video_saved_as", JStr video_filename);
    ("data_saved_as",
       JStr (match txt_filepath with
             | Some p => os_path_basename p
             | None => "failed"
             end))])).

(** Lines 95-147, once [device_data] has its required fields. *)
Definition receive_video (request : Request) (device_data : json) : M response :=
  match multidict_get "liveness_video" (files request) with
  | None => ret (JsonResponse 400 (error_body "Missing 'liveness_video' file"))
  | Some video_file =>
      if String.eqb (filename video_file) "" then
        ret (JsonResponse 400 (error_body "No video file selected"))
      else
        (* lines 109-112: what the log lines evaluate *)
        let* _ := lift (py_getitem device_data "device_id") in
        let* _ := lift (py_getitem device_data "is_compromised") in
        let* _ := lift (py_getitem device_data "gps_location") in
        let* _ := lift (py_getitem device_data "ip_address") in
        let* saved := persist_video device_data video_file in
        acknowledge device_data video_file saved
  end.

Definition verify_body (request : Request) : M response :=
  if negb (content_type_ok (content_type request)) then
    ret (JsonResponse 400 (error_body "Content type must be multipart/form-data"))
  else
    match multidict_get "data" (form request) with
    | None => ret (JsonResponse 400 (error_body "Missing 'data' part"))
    | Some json_data =>
        match json_loads lib json_data with
        | Raise (JSONDecodeError _) =>
            ret (JsonResponse 400 (error_body "Invalid JSON in 'data' part"))
        | Raise e => raise e
        | Ok device_data =>
            let* missing := lift (check_required_fields required_fields device_data) in
            match missing with
            | Some field =>
                ret (JsonResponse 400 (error_body ("Missing required field: " +:+ field)))
            | None => receive_video request device_data
            end
        end
    end.

Definition internal_error (e : exception) : response :=
  JsonResponse 500 (JObj [("error", JStr "Internal server error");
                          ("details", JStr (str_exc lib e))]).

Definition verify_endpoint (request : Request) : world -> response * world :=
  if String.eqb (method request) "OPTIONS" then fun w => (TextResponse 200 "", w)
  else handle (verify_body request) internal_error.

(** ** [list_files] (lines 160-179) *)

Definition file_entry (st : gmap string node) (filename : string) : option json :=
  match st !! os_path_join UPLOAD_DIR filename with
  | Some (File content mtime) =>
      Some (JObj [("name", JStr filename);
                  ("size", JInt (Z.of_nat (length content)));
                  ("modified", JStr (isoformat mtime))])
  | _ => None
  end.

(** The loop of lines 165-172: an entry is appended for each name that
    [os.path.isfile] accepts. *)
Definition collect_files (st : gmap string node) (names : list string) : list json :=
  fold_left (fun files filename =>
               match file_entry st filename with
               | Some entry => (files ++ [entry])%list
               | None => files
               end) names [].

Definition list_files : world -> response * world :=
  handle
    (let* names := os_listdir UPLOAD_DIR in
     fun w =>
       let files := collect_files (store w) names in
       (Ok (JsonResponse 200 (JObj [("files", JArr files);
                                    ("count", JInt (Z.of_nat (length files)))])), w))
    (fun e => JsonResponse 500 (error_body (str_exc lib e))).

(** ** [download_file] (lines 180-185) *)

(** [send_from_directory(directory, path)]: [NotFound] unless the joined
    path is safe and a regular file; then its bytes. A relative
    [directory] is taken as the program's other file operations take it. *)
Definition send_from_directory (directory path : string) : M (list byte) :=
  match safe_join directory path with
  | None => raise NotFound
  | Some p =>
      fun w =>
        match store w !! p with
        | Some (File content _) => bind io_step (fun _ => ret content) w
        | _ => (Raise NotFound, w)
        end
  end.

Definition download_file (filename : string) : world -> response * world :=
  handle
    (let* content := send_from_directory UPLOAD_DIR filename in
     ret (FileResponse 200 content))
    (fun e => JsonResponse 404 (error_body (str_exc lib e))).

(** ** [health_check] (lines 153-158) and [home] (lines 188-197) *)

(** What Flask answers when a view lets an exception escape. *)
Definition unhandled (e : exception) : response :=
  TextResponse 500 "Internal Server Error".

Definition health_check : world -> response * world :=
  handle
    (let* now := datetime_now in
     ret (JsonResponse 200 (JObj [("status", JStr "server_is_running");
                                  ("timestamp", JStr (isoformat now))])))
    unhandled.

Definition home : world -> response * world :=
  fun w =>
    (JsonResponse 200
       (JObj [("message", JStr "Liveness Verification Server");
              ("endpoints",
               JObj [("POST /verify", JStr "Receive video and JSON data");
                     ("GET /health", JStr "Server health check");
                     ("GET /files", JStr "List uploaded files")])]), w).

(** ** Start of the program (lines 20-23) *)

(** [os.path.exists(path)]: something is there, whatever it is. *)
Definition os_path_exists (st : gmap string node) (path : string) : bool :=
  match st !! path with
  | Some _ => true
  | None => false
  end.

(** [os.makedirs(path)] for a path of one component, as [UPLOAD_DIR] is:
    one directory is made, in the working directory. *)
Definition os_makedirs (path : string) : M unit :=
  let* _ := io_step in
  fun w =>
    match store w !! path with
    | Some _ =>
        (Raise (OSError ("[Errno 17] File exists: " +:+ repr_str lib path)), w)
    | None => (Ok tt, set_store (<[path := Directory]> (store w)) w)
    end.

(** Lines 22-23: [if not os.path.exists(UPLOAD_DIR): os.makedirs(UPLOAD_DIR)]. *)
Definition create_upload_dir : M unit :=
  fun w =>
    if negb (os_path_exists (store w) UPLOAD_DIR) then os_makedirs UPLOAD_DIR w
    else (Ok tt, w).

End Handlers.

(** * The vocabulary of the properties *)

(** ** Worlds in which a file can be written *)

(** None of the next [n] file-system calls is scheduled to fail. *)
Definition no_fault (n : nat) (pl : list (option string)) : bool :=
  forallb (fun o => match o with None => true | Some _ => false end) (firstn n pl).

(** [path] can be created and written: its two file-system calls are not
    scheduled to fail, its directory is there, and it is not itself a
    directory. *)
Definition can_create (w : world) (path : string) : bool :=
  no_fault 2 (plan w) && is_dir (store w) (parent_dir path) &&
  match store w !! path with
  | Some Directory => false
  | _ => true
  end.

(** The names of the two files of a submission. *)
Definition video_name (lib : PyLib) (device_id : json) (timestamp : string) : string :=
  "mobile_liveness_" +:+ py_str lib device_id +:+ "_" +:+ timestamp +:+ ".mp4".

Definition transcript_name (lib : PyLib) (device_id : json) (timestamp : string) : string :=
  "device_data_" +:+ py_str lib device_id +:+ "_" +:+ timestamp +:+ ".txt".

(** ** Properties of computations *)

(** [inv I m]: whatever [m] does, and whether or not it raises, it keeps
    [I] true of the world. *)
Definition inv {A} (I : world -> Prop) (m : M A) : Prop :=
  forall w r w', I w -> m w = (r, w') -> I w'.

(** [yields v m]: when [m] returns, it returns [v]. *)
Definition yields {A} (v : A) (m : M A) : Prop :=
  forall w a w', m w = (Ok a, w') -> a = v.

(** [raises m]: [m] raises in every world. *)
Definition raises {A} (m : M A) : Prop :=
  forall w, exists e w', m w = (Raise e, w').

(** [returns Q m]: what [m] returns satisfies [Q]. *)
Definition returns {A} (Q : A -> Prop) (m : M A) : Prop :=
  forall w a w', m w = (Ok a, w') -> Q a.

(** Invariants that speak of the store only. *)
Definition on_store (P : gmap string node -> Prop) : world -> Prop :=
  fun w => P (store w).

(** ** Responses and submissions *)

(** [k] is a key of the object. *)
Definition has_key (k : string) (fields : list (string * json)) : Prop :=
  k ∈ fields.*1.

Definition status_of (r : response) : nat :=
  match r with
  | JsonResponse s _ | FileResponse s _ | TextResponse s _ => s
  end.

(** A top-level field of a JSON response. *)
Definition json_field (k : string) (r : response) : option json :=
  match r with
  | JsonResponse _ (JObj fields) => dict_lookup k fields
  | _ => None
  end.

(** A POST that passes every check of lines 70-105: multipart content
    type, a [data] field that decodes to an object with the four required
    keys, a [liveness_video] file with a filename. *)
Record valid_submission (lib : PyLib) (request : Request)
    (fields : list (string * json)) (video_file : FileStorage) : Prop := {
  valid_method : method request = "POST";
  valid_content_type : content_type_ok (content_type request) = true;
  valid_data : exists json_data,
      multidict_get "data" (form request) = Some json_data /\
      json_loads lib json_data = Ok (JObj fields);
  valid_fields : forall k, k ∈ required_fields -> has_key k fields;
  valid_video : multidict_get "liveness_video" (files request) = Some video_file;
  valid_filename : filename video_file <> ""
}.

(** The acknowledgment of lines 136-144. *)
Definition acknowledgment (received_at : datetime) (device_id : json)
    (video_size : nat) (video_filename data_saved_as : string) : json :=
  JObj [
    ("status", JStr "received_ok");
    ("message", JStr "Successfully received both JSON data and video file from mobile");
    ("received_at", JStr (isoformat received_at));
    ("device_id", device_id);
    ("video_size", JInt (Z.of_nat video_size));
    ("video_saved_as", JStr video_filename);
    ("data_saved_as", JStr data_saved_as)].

(** ** Content types *)


(** The media type a Content-Type value announces: the text before the
    first [;], without blanks around it, in lower case. *)
Fixpoint before_semicolon (s : string) : string :=
  match s with
  | EmptyString => ""
  | String c s' => if Ascii.eqb c ";" then "" else String c (before_semicolon s')
  end.

Fixpoint lstrip (s : string) : string :=
  match s with
  | String c s' => if Ascii.eqb c " " then lstrip s' else s
  | EmptyString => ""
  end.

Definition strip (s : string) : string :=
  String.rev (lstrip (String.rev (lstrip s))).

Definition lower_ascii (c : ascii) : ascii :=
  let n := N_of_ascii c in
  if (65 <=? n)%N && (n <=? 90)%N then ascii_of_N (n + 32) else c.

Fixpoint lower (s : string) : string :=
  match s with
  | EmptyString => ""
  | String c s' => String (lower_ascii c) (lower s')
  end.

Definition media_type (content_type_value : string) : string :=
  lower (strip (before_semicolon content_type_value)).


(** ** The upload directory *)

(** The upload directory is flat: no path of the store is a directory
    except the upload directory itself. *)
Definition flat (st : gmap string node) : Prop :=
  forall p, st !! p = Some Directory -> p = UPLOAD_DIR.

(** Whether [filename] resolves, as [send_from_directory] resolves it, to
    a regular file of the upload directory. *)
Definition names_file (st : gmap string node) (filename : string) : bool :=
  match safe_join UPLOAD_DIR filename with
  | Some p => is_file st p
  | None => false
  end.

(** The entry of a regular file in the listing. *)
Definition listing_entry (name : string) (content : list byte) (mtime : datetime) : json :=
  JObj [("name", JStr name);
        ("size", JInt (Z.of_nat (length content)));
        ("modified", JStr (isoformat mtime))].

Definition is_regular (nd : node) : bool :=
  match nd with
  | File _ _ => true
  | Directory => false
  end.

(** The regular files that are entries of the upload directory itself. *)
Definition regular_files (st : gmap string node) : gmap string node :=
  filter (fun kv => is_Some (child_name UPLOAD_DIR (fst kv)) /\ is_regular (snd kv) = true) st.

(** The entry the listing makes of one item of the store. *)
Definition entry_of_item (st : gmap string node) (kv : string * node) : option json :=
  match child_name UPLOAD_DIR (fst kv) with
  | Some name => file_entry st name
  | None => None
  end.

(** ** Outcomes of a submission *)

(** The three ways a POST to [verify_endpoint] can go: rejected by a
    check, with the world as it was; an exception before anything is
    saved, with the world as it was; or past every check, where the video
    is saved and the request acknowledged. *)
Inductive verify_outcome (lib : PyLib) (request : Request) (w : world)
  : response * world -> Prop :=
| Rejected (msg : string) :
    verify_outcome lib request w (JsonResponse 400 (error_body msg), w)
| Crashed (e : exception) :
    verify_outcome lib request w (internal_error lib e, w)
| Received (fields : list (string * json)) (video_file : FileStorage) :
    valid_submission lib request fields video_file ->
    verify_outcome lib request w
      (handle (let* saved := persist_video lib (JObj fields) video_file in
               acknowledge lib (JObj fields) video_file saved)
              (internal_error lib) w).



(** The paths of the two files of a submission. *)
Definition video_path (lib : PyLib) (device_id : json) (timestamp : string) : string :=
  os_path_join UPLOAD_DIR (video_name lib device_id timestamp).

Definition transcript_path (lib : PyLib) (device_id : json) (timestamp : string)
  : string :=
  os_path_join UPLOAD_DIR (transcript_name lib device_id timestamp).

Create HintDb inv discriminated.

(** * A sample library and sample worlds *)

Module Sample.

Definition dq : string := String (ascii_of_nat 34) "".

(** [repr] of a str of plain characters (no quote, backslash or control
    character). *)
Definition repr (s : string) : string := "'" +:+ s +:+ "'".

Definition indent (level : nat) : string := String.concat "" (repeat "  " level).

(** [json.dumps(v, indent=2)] on values whose strings are plain. *)
Fixpoint dumps_at (level : nat) (v : json) : string :=
  match v with
  | JNull => "null"
  | JBool true => "true"
  | JBool false => "false"
  | JInt n => pretty n
  | JFloat r => r
  | JStr s => dq +:+ s +:+ dq
  | JArr [] => "[]"
  | JArr items =>
      "[" +:+ nl +:+
      join ("," +:+ nl)
           (List.map (fun x => indent (S level) +:+ dumps_at (S level) x) items)
      +:+ nl +:+ indent level +:+ "]"
  | JObj [] => "{}"
  | JObj fields =>
      "{" +:+ nl +:+
      join ("," +:+ nl)
           (List.map (fun kv => let '(k, x) := kv in
                        indent (S level) +:+ dq +:+ k +:+ dq +:+ ": "
                        +:+ dumps_at (S level) x) fields)
      +:+ nl +:+ indent level +:+ "}"
  end.

Definition dumps (v : json) : string := dumps_at 0 v.

Definition gps : json :=
  JObj [("latitude", JFloat "1.0"); ("longitude", JFloat "2.0")].

Definition good_fields : list (string * json) :=
  [("device_id", JStr "abc123"); ("is_compromised", JBool false);
   ("ip_address", JStr "1.2.3.4"); ("gps_location", gps)].

Definition no_coordinates_fields : list (string * json) :=
  [("device_id", JStr "abc123"); ("is_compromised", JBool false);
   ("ip_address", JStr "1.2.3.4"); ("gps_location", JObj [])].

Definition odd_fields : list (string * json) :=
  [("device_id", JNull); ("is_compromised", JStr "");
   ("gps_location", JInt 7); ("ip_address", JArr [])].

Definition short_fields : list (string * json) :=
  [("device_id", JStr "abc123"); ("gps_location", gps)].

(** The values whose texts [loads] decodes. *)
Definition decodable : list json :=
  [ JObj good_fields; JObj no_coordinates_fields; JObj odd_fields;
    JObj short_fields; JInt 5; JNull ].

(** [json.loads] on the texts of [decodable] and on the malformed text
    [{oops]; it is meant for no other text. *)
Definition loads (s : string) : result json :=
  match List.find (fun v => String.eqb (dumps v) s) decodable with
  | Some v => Ok v
  | None =>
      Raise (JSONDecodeError
        "Expecting property name enclosed in double quotes: line 1 column 2 (char 1)")
  end.

Definition lib : PyLib :=
  {| json_loads := loads; json_dumps := dumps; repr_str := repr |}.

Definition noon (n : nat) : datetime :=
  {| year := 2024; month := 3; day := 7; hour := 12; minute := 0;
     second := N.of_nat n; microsecond := 250 |}.

(** An empty upload directory, a clock that advances a second per
    reading, no I/O fault. *)
Definition fresh : world :=
  {| store := {[ "uploads" := Directory ]}; clock := noon; tick := 0; plan := [] |}.

Definition clip : FileStorage :=
  {| filename := "clip.mp4"; file_content_type := "video/mp4";
     stream := {| data := [x01; x02; x03; x04; x05; x06; x07; x08; x09; x0a];
                  pos := 0 |} |}.

Definition submission (ct : string) (json_data : string) : Request :=
  {| method := "POST"; content_type := Some ct;
     form := [("data", json_data)]; files := [("liveness_video", clip)] |}.

Definition multipart : string := "multipart/form-data; boundary=xyz".

(** The example of the specification: ten bytes sent as [clip.mp4]. *)
Definition good : Request := submission multipart (dumps (JObj good_fields)).

(** The same with an empty [gps_location] object. *)
Definition no_coordinates : Request :=
  submission multipart (dumps (JObj no_coordinates_fields)).

(** The four keys bound to null, an empty string, a number and a list. *)
Definition odd_values : Request := submission multipart (dumps (JObj odd_fields)).

(** No [is_compromised] and no [ip_address]. *)
Definition short : Request := submission multipart (dumps (JObj short_fields)).

(** The JSON text [5]. *)
Definition number : Request := submission multipart (dumps (JInt 5)).




(** An upload directory with a video, a subdirectory and a file inside
    the subdirectory. *)
Definition with_subdirectory : world :=
  {| store := {[ "uploads" := Directory;
                 "uploads/a.mp4" := File [x01; x02; x03] (noon 5);
                 "uploads/archive" := Directory;
                 "uploads/archive/old.mp4" := File [x09] (noon 1) ]};
     clock := noon; tick := 0; plan := [] |}.

End Sample.

Definition good_stamp : string := "20240307_120000".
Definition good_video : string := "mobile_liveness_abc123_20240307_120000.mp4".
Definition good_transcript : string := "device_data_abc123_20240307_120000.txt".

Definition good_saved : world :=
  snd (persist_video Sample.lib (JObj Sample.good_fields) Sample.clip Sample.fresh).

Definition good_written : world :=
  snd (save_to_txt_file Sample.lib (JObj Sample.good_fields) "clip.mp4" 10 good_stamp
         good_saved).

(** ** Further sample requests and worlds *)

Module Cases.

(** A multipart POST that carries no form field and no file. *)
Definition no_data : Request :=
  {| method := "POST"; content_type := Some Sample.multipart;
     form := []; files := [] |}.

(** No upload directory: nothing was created at the start, or it was
    removed since. *)
Definition no_upload_dir : world :=
  {| store := ∅; clock := Sample.noon; tick := 0; plan := [] |}.

(** A [device_id] with a path separator. *)
Definition slash_fields : list (string * json) :=
  [("device_id", JStr "a/b"); ("is_compromised", JBool false);
   ("ip_address", JStr "1.2.3.4"); ("gps_location", Sample.gps)].

(** [json.loads] on the text of [slash_fields] and on the texts of
    [Sample.decodable]. *)
Definition loads (s : string) : result json :=
  if String.eqb s (Sample.dumps (JObj slash_fields)) then Ok (JObj slash_fields)
  else Sample.loads s.

Definition lib : PyLib :=
  {| json_loads := loads; json_dumps := Sample.dumps; repr_str := Sample.repr |}.

Definition slash : Request :=
  Sample.submission Sample.multipart (Sample.dumps (JObj slash_fields)).

(** The clock of a machine that handles two requests within one second. *)
Definition frozen : world :=
  {| store := {[ "uploads" := Directory ]}; clock := fun _ => Sample.noon 0;
     tick := 0; plan := [] |}.

Definition clip2 : FileStorage :=
  {| filename := "retry.mp4"; file_content_type := "video/mp4";
     stream := {| data := [xff; xfe; xfd]; pos := 0 |} |}.

(** The device of [Sample.good] sends another clip. *)
Definition second : Request :=
  {| method := "POST"; content_type := Some Sample.multipart;
     form := [("data", Sample.dumps (JObj Sample.good_fields))];
     files := [("liveness_video", clip2)] |}.

(** A flat upload directory that holds a video already. *)
Definition busy : world :=
  {| store := {[ "uploads" := Directory;
                 "uploads/a.mp4" := File [x01; x02; x03] (Sample.noon 5) ]};
     clock := Sample.noon; tick := 0; plan := [] |}.

End Cases.

(** * Lemmas on the model *)

(** ** Strings and paths *)

Section PathFacts.

Lemma str_app_assoc (a b c : string) : (a +:+ b) +:+ c = a +:+ b +:+ c.
Proof.
  induction a as [|x a IH]; [reflexivity|].
  change (String x (a +:+ b) +:+ c = String x (a +:+ b +:+ c)).
  change (String x ((a +:+ b) +:+ c) = String x (a +:+ b +:+ c)). now rewrite IH.
Qed.

Lemma str_app_inj_l (d x y : string) : d +:+ x = d +:+ y -> x = y.
Proof.
  induction d as [|c d IH]; [trivial|].
  change (String c (d +:+ x) = String c (d +:+ y) -> x = y). intros [= E]. auto.
Qed.

Lemma has_slash_app (a b : string) :
  has_slash (a +:+ b) = has_slash a || has_slash b.
Proof.
  induction a as [|c a IH]; simpl; [reflexivity|].
  rewrite IH. now rewrite orb_assoc.
Qed.

Lemma split_slash_nonempty (s : string) : split_slash s <> [].
Proof.
  induction s as [|c s IH]; simpl; [discriminate|].
  destruct (Ascii.eqb c "/"); [discriminate|].
  destruct (split_slash s); discriminate.
Qed.

Lemma split_slash_no_slash (s : string) :
  has_slash s = false -> split_slash s = [s].
Proof.
  induction s as [|c s IH]; simpl; [reflexivity|].
  intros H. apply orb_false_iff in H as [Hc Hs].
  rewrite Hc, (IH Hs). reflexivity.
Qed.

(** Splitting distributes over a separator. *)
Lemma split_slash_sep (a b : string) :
  split_slash (a +:+ "/" +:+ b) = (split_slash a ++ split_slash b)%list.
Proof.
  induction a as [|c a IH]; simpl; [reflexivity|].
  destruct (Ascii.eqb c "/").
  - simpl in IH. now rewrite IH.
  - simpl in IH. rewrite IH.
    destruct (split_slash a) as [|h t] eqn:E; [now apply split_slash_nonempty in E|].
    reflexivity.
Qed.

Lemma last_snoc_list {A} (l : list A) (x d : A) : List.last (l ++ [x]) d = x.
Proof.
  induction l as [|y l IH]; [reflexivity|].
  simpl. destruct (l ++ [x])%list eqn:E; [now destruct l|]. exact IH.
Qed.

Lemma basename_in_dir (dir name : string) :
  has_slash name = false -> os_path_basename (dir +:+ "/" +:+ name) = name.
Proof.
  intros H. unfold os_path_basename.
  rewrite split_slash_sep, (split_slash_no_slash _ H). apply last_snoc_list.
Qed.

Lemma starts_with_slash_no_slash (name : string) :
  has_slash name = false -> starts_with "/" name = false.
Proof.
  destruct name as [|c name]; [reflexivity|].
  intros H. cbn [has_slash] in H. apply orb_false_iff in H as [Hc _].
  cbn [starts_with]. rewrite Ascii.eqb_sym, Hc. reflexivity.
Qed.

(** Joining the upload directory with a name that does not start with a
    separator puts the name under it. *)
Lemma join_upload_dir (name : string) :
  starts_with "/" name = false ->
  os_path_join UPLOAD_DIR name = "uploads/" +:+ name.
Proof. intros H. unfold os_path_join. now rewrite H. Qed.

Lemma normpath_plain (name : string) :
  has_slash name = false -> name <> "" -> name <> "." -> normpath name = name.
Proof.
  intros Hs Hne Hdot. unfold normpath.
  apply String.eqb_neq in Hne. apply String.eqb_neq in Hdot.
  rewrite Hne, (starts_with_slash_no_slash _ Hs), (split_slash_no_slash _ Hs).
  simpl. unfold normpath_step. rewrite Hne, Hdot. simpl.
  rewrite orb_true_r. simpl. change ("" +:+ name) with name. now rewrite Hne.
Qed.

Lemma starts_with_dotdot_no_slash (name : string) :
  has_slash name = false -> starts_with "../" name = false.
Proof.
  destruct name as [|c1 [|c2 [|c3 rest]]]; cbn [starts_with has_slash];
    intros Hs; try reflexivity; try (now rewrite !andb_false_r).
  apply orb_false_iff in Hs as [_ Hs]. apply orb_false_iff in Hs as [_ Hs].
  apply orb_false_iff in Hs as [Hs _].
  rewrite (Ascii.eqb_sym "/" c3), Hs. now rewrite !andb_false_r.
Qed.

(** A plain name other than [..] is served from the upload directory
    under that very name. *)
Lemma safe_join_plain (name : string) :
  has_slash name = false -> name <> ".." ->
  safe_join UPLOAD_DIR name = Some (os_path_join UPLOAD_DIR name).
Proof.
  intros Hs Hdd. unfold safe_join. cbv zeta.
  assert (Hn : (if String.eqb name "" then name else normpath name) = name).
  { destruct (String.eqb_spec name ""); [reflexivity|].
    destruct (String.eqb_spec name "."); [now subst|].
    now apply normpath_plain. }
  rewrite Hn.
  rewrite (starts_with_slash_no_slash _ Hs), (starts_with_dotdot_no_slash _ Hs).
  apply String.eqb_neq in Hdd. rewrite Hdd. reflexivity.
Qed.

Lemma split_slash_single (s x : string) :
  split_slash s = [x] -> has_slash s = false.
Proof.
  revert x. induction s as [|c s IH]; intros x; cbn [split_slash has_slash]; [reflexivity|].
  destruct (Ascii.eqb c "/").
  - intros [= _ E]. now apply split_slash_nonempty in E.
  - destruct (split_slash s) as [|h t] eqn:E; [now apply split_slash_nonempty in E|].
    intros [= _ ->]. exact (IH h eq_refl).
Qed.

(** A path joined from the upload directory and a name is created in the
    upload directory itself only if the name has no separator. *)
Lemma parent_is_upload_dir (name : string) :
  starts_with "/" name = false ->
  parent_dir (os_path_join UPLOAD_DIR name) = "" \/
  parent_dir (os_path_join UPLOAD_DIR name) = UPLOAD_DIR ->
  has_slash name = false.
Proof.
  intros Hs. rewrite (join_upload_dir _ Hs).
  change ("uploads/" +:+ name) with ("uploads" +:+ "/" +:+ name).
  unfold parent_dir. rewrite split_slash_sep.
  change (split_slash "uploads") with ["uploads"].
  destruct (split_slash name) as [|h [|h2 t]] eqn:E.
  - now apply split_slash_nonempty in E.
  - intros _. exact (split_slash_single _ _ E).
  - cbn [app removelast join].
    destruct (removelast (h2 :: t)); intros [H|H]; discriminate H.
Qed.

Lemma strip_prefix_Some (p s n : string) :
  strip_prefix p s = Some n <-> s = p +:+ n.
Proof.
  revert s. induction p as [|a p IH]; intros s; cbn [strip_prefix].
  - change ("" +:+ n) with n. split; congruence.
  - change (String a p +:+ n) with (String a (p +:+ n)).
    destruct s as [|b s].
    + split; discriminate.
    + destruct (Ascii.eqb_spec a b) as [->|Hab].
      * rewrite IH. split; congruence.
      * split; [discriminate|]. intros [= E _]. now symmetry in E.
Qed.

Lemma child_name_Some (dir key n : string) :
  child_name dir key = Some n <->
  key = dir +:+ "/" +:+ n /\ n <> "" /\ has_slash n = false.
Proof.
  unfold child_name. split.
  - destruct (strip_prefix _ key) as [m|] eqn:E; [|discriminate].
    apply strip_prefix_Some in E. rewrite str_app_assoc in E.
    destruct (String.eqb_spec m ""); cbn [negb andb]; [discriminate|].
    destruct (has_slash m) eqn:Hm; cbn [negb]; [discriminate|].
    intros [= <-]. auto.
  - intros (-> & Hn & Hs).
    assert (strip_prefix (dir +:+ "/") (dir +:+ "/" +:+ n) = Some n) as ->.
    { apply strip_prefix_Some. now rewrite str_app_assoc. }
    apply String.eqb_neq in Hn. now rewrite Hn, Hs.
Qed.

End PathFacts.

(** ** Saving the video *)

Section SaveFacts.

Context (lib : PyLib).

Lemma file_save_spec (s : Stream) (dst : string) (w w' : world) :
  file_save lib s dst w = (Ok tt, w') <->
  can_create w dst = true /\
  w' = World (<[dst := File (skipn (pos s) (data s)) (clock w (tick w))]> (store w))
             (clock w) (tick w) (skipn 2 (plan w)).
Proof.
  destruct w as [st ck tk pl].
  unfold file_save, fs_open_w, fs_write, bind, io_step, can_create, no_fault, set_store.
  cbn [plan store clock tick stream_read fst].
  destruct pl as [|[m1|] [|[m2|] rest]]; cbn [firstn forallb andb skipn plan store clock tick];
    destruct (is_dir st (parent_dir dst)); cbn [negb andb plan store clock tick];
    try (split; [discriminate | intros [? _]; discriminate]);
    destruct (st !! dst) as [[c t|]|] eqn:E; cbn [plan store clock tick];
    rewrite ?lookup_insert_eq; cbn [plan store clock tick];
    rewrite ?insert_insert_eq; cbn [app];
    try (split; [discriminate | intros [? _]; discriminate]);
    (split; [intros [= <-]; split; reflexivity | intros [_ ->]; reflexivity]).
Qed.

Lemma persist_video_spec (device_data : json) (video_file : FileStorage)
    (w w1 : world) (saved : nat * string * string) :
  persist_video lib device_data video_file w = (Ok saved, w1) <->
  exists device_id,
    py_getitem device_data "device_id" = Ok device_id /\
    let timestamp := strftime_stamp (clock w (tick w)) in
    let name := video_name lib device_id timestamp in
    let path := os_path_join UPLOAD_DIR name in
    can_create w path = true /\
    saved = (length (skipn (pos (stream video_file)) (data (stream video_file))),
             timestamp, name) /\
    w1 = World (<[path := File (data (stream video_file)) (clock w (S (tick w)))]> (store w))
               (clock w) (S (tick w)) (skipn 2 (plan w)).
Proof.
  unfold persist_video. cbn [stream_read]. unfold bind at 1, datetime_now.
  unfold bind at 1, lift.
  destruct (py_getitem device_data "device_id") as [device_id|e] eqn:Hid.
  - unfold bind at 1.
    match goal with
    | |- context [file_save lib ?s ?dst ?w0] =>
        destruct (file_save lib s dst w0) as [[[]|e] w2] eqn:Hsave
    end.
    + apply file_save_spec in Hsave as [Hc ->]. cbn in Hc |- *.
      unfold ret. split.
      * intros [= <- <-]. exists device_id. split; [reflexivity|].
        cbv zeta. split; [exact Hc|]. split; reflexivity.
      * intros (id & [= <-] & _ & -> & ->). reflexivity.
    + split; [discriminate|].
      intros (id & [= <-] & Hc & _ & _). exfalso.
      match type of Hsave with
      | file_save lib ?s ?dst ?w0 = _ =>
          assert (Hok : exists w', file_save lib s dst w0 = (Ok tt, w'))
      end.
      { eexists. apply file_save_spec. split; [exact Hc|reflexivity]. }
      destruct Hok as [w' Hok]. rewrite Hok in Hsave. discriminate.
  - split; [discriminate|]. intros (id & [=] & _).
Qed.

End SaveFacts.

(** ** Reasoning about computations *)

Section MonadFacts.

Context {A B : Type}.

Lemma inv_ret (I : world -> Prop) (a : A) : inv I (ret a).
Proof. intros w r w' HI [= _ <-]. exact HI. Qed.

Lemma inv_raise (I : world -> Prop) (e : exception) : inv I (@raise A e).
Proof. intros w r w' HI [= _ <-]. exact HI. Qed.

Lemma inv_lift (I : world -> Prop) (x : result A) : inv I (lift x).
Proof. intros w r w' HI [= _ <-]. exact HI. Qed.

Lemma inv_bind (I : world -> Prop) (m : M A) (k : A -> M B) :
  inv I m -> (forall a, inv I (k a)) -> inv I (bind m k).
Proof.
  intros Hm Hk w r w' HI. unfold bind.
  destruct (m w) as [[a|e] w1] eqn:E.
  - apply (Hk a). exact (Hm _ _ _ HI E).
  - intros [= _ <-]. exact (Hm _ _ _ HI E).
Qed.

Lemma inv_try (I : world -> Prop) (m : M A) (h : exception -> M A) :
  inv I m -> (forall e, inv I (h e)) -> inv I (try_except m h).
Proof.
  intros Hm Hh w r w' HI. unfold try_except.
  destruct (m w) as [[a|e] w1] eqn:E.
  - intros [= _ <-]. exact (Hm _ _ _ HI E).
  - apply (Hh e). exact (Hm _ _ _ HI E).
Qed.

Lemma bind_lift_ok (a : A) (k : A -> M B) (w : world) :
  bind (lift (Ok a)) k w = k a w.
Proof. reflexivity. Qed.

Lemma bind_lift_raise (e : exception) (k : A -> M B) (w : world) :
  bind (lift (Raise e)) k w = (Raise e, w).
Proof. reflexivity. Qed.

Lemma bind_ok (m : M A) (k : A -> M B) (w w' : world) (a : A) :
  m w = (Ok a, w') -> bind m k w = k a w'.
Proof. intros E. unfold bind. now rewrite E. Qed.

Lemma bind_raise (m : M A) (k : A -> M B) (w w' : world) (e : exception) :
  m w = (Raise e, w') -> bind m k w = (Raise e, w').
Proof. intros E. unfold bind. now rewrite E. Qed.

Lemma yields_ret (a : A) : yields a (ret a).
Proof. intros w x w' [= <- _]. reflexivity. Qed.

Lemma yields_bind (v : B) (m : M A) (k : A -> M B) :
  (forall a, yields v (k a)) -> yields v (bind m k).
Proof.
  intros Hk w b w'. unfold bind. destruct (m w) as [[a|e] w1]; [apply Hk|discriminate].
Qed.

Lemma raises_lift (e : exception) : raises (@lift A (Raise e)).
Proof. intros w. now exists e, w. Qed.

Lemma raises_bind_l (m : M A) (k : A -> M B) : raises m -> raises (bind m k).
Proof.
  intros Hm w. destruct (Hm w) as (e & w' & E). exists e, w'.
  unfold bind. now rewrite E.
Qed.

Lemma raises_bind_r (m : M A) (k : A -> M B) :
  (forall a, raises (k a)) -> raises (bind m k).
Proof.
  intros Hk w. unfold bind. destruct (m w) as [[a|e] w1]; [apply Hk|now exists e, w1].
Qed.

End MonadFacts.

Lemma inv_now (I : world -> Prop) :
  (forall st ck tk pl, I (World st ck tk pl) -> I (World st ck (S tk) pl)) ->
  inv I datetime_now.
Proof. intros H [st ck tk pl] r w' HI [= _ <-]. now apply H. Qed.

Lemma inv_io_step (I : world -> Prop) :
  (forall st ck tk pl pl', I (World st ck tk pl) -> I (World st ck tk pl')) ->
  inv I io_step.
Proof.
  intros H [st ck tk pl] r w' HI. unfold io_step. cbn [plan store clock tick].
  destruct pl as [|[m|] rest]; intros [= _ <-]; eauto.
Qed.

Section StoreInvariants.

Context (lib : PyLib) (P : gmap string node -> Prop).

Lemma inv_store_now : inv (on_store P) datetime_now.
Proof. apply inv_now. auto. Qed.

Lemma inv_store_io_step : inv (on_store P) io_step.
Proof. apply inv_io_step. auto. Qed.

Lemma inv_store_open (path : string) :
  (forall st t, P st -> st !! path <> Some Directory -> P (<[path := File [] t]> st)) ->
  inv (on_store P) (fs_open_w lib path).
Proof.
  intros H. apply inv_bind; [apply inv_store_io_step|]. intros _ w r w' HI.
  destruct (negb (is_dir (store w) (parent_dir path))); [intros [= _ <-]; exact HI|].
  destruct (store w !! path) as [[c t|]|] eqn:E; intros [= _ <-]; try exact HI;
    apply H; try exact HI; congruence.
Qed.

Lemma inv_store_write (path : string) (bytes : list byte) :
  (forall st c t t', P st -> st !! path = Some (File c t) ->
                     P (<[path := File (c ++ bytes) t']> st)) ->
  inv (on_store P) (fs_write path bytes).
Proof.
  intros H. apply inv_bind; [apply inv_store_io_step|]. intros _ w r w' HI.
  destruct (store w !! path) as [[c t|]|] eqn:E; intros [= _ <-]; try exact HI.
  eapply H; eauto.
Qed.

End StoreInvariants.

(** The two store invariants used below: the entry at [q] stays what it
    is, and [p] stays a regular file. *)
Section Frames.

Context (lib : PyLib).

Lemma frame_open (q : string) (x : option node) (path : string) :
  path <> q -> inv (on_store (fun st => st !! q = x)) (fs_open_w lib path).
Proof. intros Hne. apply inv_store_open. intros st t H _. now rewrite lookup_insert_ne. Qed.

Lemma frame_write (q : string) (x : option node) (path : string) (bytes : list byte) :
  path <> q -> inv (on_store (fun st => st !! q = x)) (fs_write path bytes).
Proof. intros Hne. apply inv_store_write. intros st c t t' H _. now rewrite lookup_insert_ne. Qed.

Lemma stays_file_open (p path : string) :
  inv (on_store (fun st => is_file st p = true)) (fs_open_w lib path).
Proof.
  apply inv_store_open. intros st t H _. unfold is_file in *.
  destruct (decide (path = p)) as [->|Hne];
    [now rewrite lookup_insert_eq | now rewrite lookup_insert_ne].
Qed.

Lemma stays_file_write (p path : string) (bytes : list byte) :
  inv (on_store (fun st => is_file st p = true)) (fs_write path bytes).
Proof.
  apply inv_store_write. intros st c t t' H _. unfold is_file in *.
  destruct (decide (path = p)) as [->|Hne];
    [now rewrite lookup_insert_eq | now rewrite lookup_insert_ne].
Qed.

Lemma transcript_path_eq (x : string) :
  os_path_join UPLOAD_DIR ("device_data_" +:+ x) = "uploads/device_data_" +:+ x.
Proof. reflexivity. Qed.

Lemma video_path_eq (x : string) :
  os_path_join UPLOAD_DIR ("mobile_liveness_" +:+ x) = "uploads/mobile_liveness_" +:+ x.
Proof. reflexivity. Qed.

Lemma starts_with_app (p x : string) : starts_with p (p +:+ x) = true.
Proof.
  induction p as [|c p IH]; [reflexivity|].
  change (String c p +:+ x) with (String c (p +:+ x)). cbn [starts_with].
  now rewrite Ascii.eqb_refl, IH.
Qed.

Lemma transcript_path_ne (q x : string) :
  starts_with "uploads/device_data_" q = false ->
  os_path_join UPLOAD_DIR ("device_data_" +:+ x) <> q.
Proof.
  intros H <-. rewrite transcript_path_eq, starts_with_app in H. discriminate.
Qed.

End Frames.

#[local] Hint Resolve inv_ret inv_raise inv_lift inv_store_now inv_store_io_step
  stays_file_open stays_file_write : inv.

(** ** The transcript writer *)

(** Walks down a computation, closing each primitive with [leaf]. *)
Ltac inv_steps leaf :=
  repeat first
    [ leaf
    | apply inv_try; [|intros ?; apply inv_ret]
    | apply inv_bind; [|intros ?]
    | progress cbv zeta ].

Section TranscriptFacts.

Context (lib : PyLib).
Implicit Types (device_data : json) (video_filename timestamp : string).

(** The writer never raises: whatever happens inside, it returns. *)
Lemma save_to_txt_file_total device_data video_filename video_size timestamp w :
  exists r w',
    save_to_txt_file lib device_data video_filename video_size timestamp w = (Ok r, w').
Proof.
  unfold save_to_txt_file, try_except.
  match goal with |- context [match ?m w with _ => _ end] => destruct (m w) as [[a|e] w1] end.
  - eauto.
  - unfold ret. eauto.
Qed.

(** It touches no path outside the [device_data_] names. *)
Lemma save_to_txt_file_frame device_data video_filename video_size timestamp q x :
  starts_with "uploads/device_data_" q = false ->
  inv (on_store (fun st => st !! q = x))
      (save_to_txt_file lib device_data video_filename video_size timestamp).
Proof.
  intros Hq. unfold save_to_txt_file.
  inv_steps ltac:(first
    [ apply inv_lift | apply inv_ret | apply inv_store_now
    | apply frame_open; now apply transcript_path_ne
    | apply frame_write; now apply transcript_path_ne ]).
Qed.

Lemma fs_open_w_file (path : string) (w w' : world) :
  fs_open_w lib path w = (Ok tt, w') -> is_file (store w') path = true.
Proof.
  unfold fs_open_w, bind. destruct (io_step w) as [[[]|e] w1]; [|discriminate].
  destruct (negb (is_dir (store w1) (parent_dir path))); [discriminate|].
  destruct (store w1 !! path) as [[c t|]|]; intros [= <-];
    unfold is_file, set_store; cbn [store]; now rewrite lookup_insert_eq.
Qed.

(** When it returns a path, that is the path of the transcript, and the
    transcript is there. *)
Lemma save_to_txt_file_Some device_data video_filename video_size timestamp w p w' :
  save_to_txt_file lib device_data video_filename video_size timestamp w
    = (Ok (Some p), w') ->
  exists device_id,
    py_getitem device_data "device_id" = Ok device_id /\
    p = os_path_join UPLOAD_DIR (transcript_name lib device_id timestamp) /\
    is_file (store w') p = true.
Proof.
  unfold save_to_txt_file, try_except.
  destruct (py_getitem device_data "device_id") as [device_id|e] eqn:Hid;
    [rewrite bind_lift_ok | rewrite bind_lift_raise; discriminate].
  cbv zeta. fold (transcript_name lib device_id timestamp).
  set (path := os_path_join UPLOAD_DIR (transcript_name lib device_id timestamp)).
  destruct (fs_open_w lib path w) as [[[]|e] w1] eqn:Hopen;
    [rewrite (bind_ok _ _ _ _ _ Hopen) | rewrite (bind_raise _ _ _ _ _ Hopen); discriminate].
  apply fs_open_w_file in Hopen.
  match goal with
  | |- context [match ?m w1 with _ => _ end] =>
      destruct (m w1) as [[a|e] w2] eqn:Hrest;
      [assert (Hy : yields (Some path) m); [|assert (Hi : inv (on_store (fun st => is_file st path = true)) m)]|]
  end.
  - repeat (apply yields_bind; intros ?). apply yields_ret.
  - inv_steps ltac:(solve [auto with inv]).
  - intros [= -> <-]. exists device_id. apply Hy in Hrest as Hp.
    assert (Hpath : p = path) by congruence.
    split; [reflexivity|]. split; [exact Hpath|].
    rewrite Hpath. exact (Hi _ _ _ Hopen Hrest).
  - discriminate.
Qed.

Lemma raises_bind_ok {A B} (a : A) (k : A -> M B) :
  raises (k a) -> raises (bind (lift (Ok a)) k).
Proof. intros H w. exact (H w). Qed.

(** A location without its latitude or its longitude makes the body
    raise; the writer swallows it and reports no transcript. *)
Lemma save_to_txt_file_gps_fault fields gps video_filename video_size timestamp :
  dict_lookup "gps_location" fields = Some gps ->
  (exists e, py_getitem gps "latitude" = Raise e) \/
  (exists e, py_getitem gps "longitude" = Raise e) ->
  forall w, exists w',
    save_to_txt_file lib (JObj fields) video_filename video_size timestamp w
      = (Ok None, w').
Proof.
  intros Hgps Hkey w. unfold save_to_txt_file, try_except.
  match goal with
  | |- context [match ?m w with _ => _ end] => assert (Hr : raises m)
  end.
  { assert (Hg : py_getitem (JObj fields) "gps_location" = Ok gps).
    { unfold py_getitem. now rewrite Hgps. }
    rewrite Hg. cbv zeta.
    destruct Hkey as [[e He]|[e He]];
      repeat first
        [ apply raises_bind_l; apply raises_lift
        | apply raises_bind_ok; cbv beta; try rewrite He
        | apply raises_bind_r; intros ? ]. }
  destruct (Hr w) as (e & w' & ->). unfold ret. eauto.
Qed.

End TranscriptFacts.

(** ** Submissions that pass validation *)

Section Validation.

Context (lib : PyLib).

Lemma has_key_existsb (k : string) (fields : list (string * json)) :
  existsb (fun kv => String.eqb k (fst kv)) fields = true <-> has_key k fields.
Proof.
  unfold has_key. induction fields as [|[k' v] fields IH]; cbn [existsb fmap list_fmap fst].
  - split; [discriminate|]. intros H. inversion H.
  - rewrite orb_true_iff, IH, elem_of_cons.
    now rewrite String.eqb_eq.
Qed.

Lemma has_key_lookup (k : string) (fields : list (string * json)) :
  has_key k fields <-> exists v, dict_lookup k fields = Some v.
Proof.
  unfold has_key, dict_lookup. induction fields as [|[k' v] fields IH]; cbn [find fmap list_fmap fst].
  - split; [intros H; inversion H | intros [v [=]]].
  - rewrite elem_of_cons. destruct (String.eqb_spec k k') as [->|Hne].
    + split; [intros _; now exists v | now left].
    + rewrite <- IH. split; [intros [?|?]; [contradiction|assumption] | now right].
Qed.

Lemma getitem_present (k : string) (fields : list (string * json)) (v : json) :
  dict_lookup k fields = Some v -> py_getitem (JObj fields) k = Ok v.
Proof. intros H. unfold py_getitem. now rewrite H. Qed.

Lemma getitem_absent (k : string) (fields : list (string * json)) :
  dict_lookup k fields = None -> py_getitem (JObj fields) k = Raise (KeyError k).
Proof. intros H. unfold py_getitem. now rewrite H. Qed.

(** The loop finds no missing field exactly when every field is a key. *)
Lemma check_required_fields_None (names : list string) (fields : list (string * json)) :
  check_required_fields names (JObj fields) = Ok None <->
  forall k, k ∈ names -> has_key k fields.
Proof.
  induction names as [|n names IH]; cbn [check_required_fields py_in].
  - split; [intros _ k H; inversion H | reflexivity].
  - destruct (existsb _ fields) eqn:E.
    + apply has_key_existsb in E. rewrite IH. split.
      * intros H k Hk. apply elem_of_cons in Hk as [->|Hk]; auto.
      * intros H k Hk. apply H. now right.
    + split; [discriminate|]. intros H.
      assert (Hn : has_key n fields) by (apply H; now left).
      apply has_key_existsb in Hn. congruence.
Qed.

(** The loop stops at the first field that is not a key. *)
Lemma check_required_fields_first (pre post : list string) (field : string)
    (fields : list (string * json)) :
  (forall k, k ∈ pre -> has_key k fields) -> ~ has_key field fields ->
  check_required_fields (pre ++ field :: post) (JObj fields) = Ok (Some field).
Proof.
  intros Hpre Hf. induction pre as [|n pre IH]; cbn [app check_required_fields py_in].
  - destruct (existsb _ fields) eqn:E; [|reflexivity].
    apply has_key_existsb in E. contradiction.
  - assert (Hn : has_key n fields) by (apply Hpre; now left).
    apply has_key_existsb in Hn. rewrite Hn. apply IH.
    intros k Hk. apply Hpre. now right.
Qed.

Lemma handle_ok (m : M response) (h : exception -> response) (w w' : world) (r : response) :
  m w = (Ok r, w') -> handle m h w = (r, w').
Proof. intros E. unfold handle. now rewrite E. Qed.

Lemma handle_raise (m : M response) (h : exception -> response) (w w' : world) (e : exception) :
  m w = (Raise e, w') -> handle m h w = (h e, w').
Proof. intros E. unfold handle. now rewrite E. Qed.

(** Past validation, the handler is the two stages in sequence. *)
Lemma verify_valid request fields video_file w :
  valid_submission lib request fields video_file ->
  verify_endpoint lib request w =
  handle (let* saved := persist_video lib (JObj fields) video_file in
          acknowledge lib (JObj fields) video_file saved)
         (internal_error lib) w.
Proof.
  intros [Hm Hct (s & Hs & Hl) Hf Hv Hn].
  unfold verify_endpoint, verify_body, receive_video.
  rewrite Hm, Hct, Hs, Hl, Hv. cbn [String.eqb negb].
  apply String.eqb_neq in Hn. rewrite Hn.
  assert (Hc : check_required_fields required_fields (JObj fields) = Ok None)
    by now apply check_required_fields_None.
  rewrite Hc.
  assert (Hget : forall k, k ∈ required_fields ->
                   exists v, py_getitem (JObj fields) k = Ok v).
  { intros k Hk. apply Hf, has_key_lookup in Hk as [v Hk]. exists v.
    now apply getitem_present. }
  destruct (Hget "device_id") as [v1 ->]; [unfold required_fields; set_solver|].
  destruct (Hget "is_compromised") as [v2 ->]; [unfold required_fields; set_solver|].
  destruct (Hget "gps_location") as [v3 ->]; [unfold required_fields; set_solver|].
  destruct (Hget "ip_address") as [v4 ->]; [unfold required_fields; set_solver|].
  reflexivity.
Qed.

(** Once the video is saved the request is acknowledged with 200,
    whatever the transcript writer returns. *)
Lemma verify_saved request fields video_file w size timestamp name w1 r w2 :
  valid_submission lib request fields video_file ->
  persist_video lib (JObj fields) video_file w = (Ok (size, timestamp, name), w1) ->
  save_to_txt_file lib (JObj fields) (filename video_file) size timestamp w1 = (Ok r, w2) ->
  exists device_id,
    dict_lookup "device_id" fields = Some device_id /\
    verify_endpoint lib request w =
    (JsonResponse 200
       (acknowledgment (clock w2 (tick w2)) device_id size name
          (match r with Some p => os_path_basename p | None => "failed" end)),
     World (store w2) (clock w2) (S (tick w2)) (plan w2)).
Proof.
  intros Hvalid Hvideo Htxt.
  destruct (proj1 (has_key_lookup "device_id" fields)) as [device_id Hid].
  { apply (valid_fields _ _ _ _ Hvalid). unfold required_fields. set_solver. }
  exists device_id. split; [exact Hid|].
  rewrite (verify_valid _ _ _ _ Hvalid). apply handle_ok.
  rewrite (bind_ok _ _ _ _ _ Hvideo). unfold acknowledge.
  rewrite (bind_ok _ _ _ _ _ Htxt).
  unfold bind at 1, datetime_now. rewrite (getitem_present _ _ _ Hid).
  reflexivity.
Qed.

End Validation.

(** * The properties of the specification *)

(** ** Accepted submissions *)

Section Submit.

Context (lib : PyLib).

Lemma video_path_not_transcript (device_id : json) (timestamp : string) :
  starts_with "uploads/device_data_"
    (os_path_join UPLOAD_DIR (video_name lib device_id timestamp)) = false.
Proof. reflexivity. Qed.

(** What the transcript writer leaves of a saved video. *)
Lemma video_survives_transcript fields video_filename size timestamp w1 r w2
    device_id stamp content mtime :
  store w1 !! os_path_join UPLOAD_DIR (video_name lib device_id stamp)
    = Some (File content mtime) ->
  save_to_txt_file lib (JObj fields) video_filename size timestamp w1 = (r, w2) ->
  store w2 !! os_path_join UPLOAD_DIR (video_name lib device_id stamp)
    = Some (File content mtime).
Proof.
  intros Hin Htxt.
  exact (save_to_txt_file_frame lib _ _ _ _ _ _
           (video_path_not_transcript device_id stamp) _ _ _ Hin Htxt).
Qed.

(** C1: for every valid submission whose video file can be created, the
    request is acknowledged with 200, [video_size] is the byte length of
    the submitted payload, and the file saved under the video's name holds
    exactly the submitted bytes: measuring the payload with [read()] and
    rewinding does not shorten or alter what [save] writes. *)
Theorem video_bytes_round_trip (request : Request) (fields : list (string * json))
    (video_file : FileStorage) (device_id : json) (w : world) :
  valid_submission lib request fields video_file ->
  dict_lookup "device_id" fields = Some device_id ->
  pos (stream video_file) = 0 ->
  can_create w (os_path_join UPLOAD_DIR
                  (video_name lib device_id (strftime_stamp (clock w (tick w))))) = true ->
  exists response w' mtime,
    verify_endpoint lib request w = (response, w') /\
    status_of response = 200 /\
    json_field "video_size" response
      = Some (JInt (Z.of_nat (length (data (stream video_file))))) /\
    store w' !! os_path_join UPLOAD_DIR
                  (video_name lib device_id (strftime_stamp (clock w (tick w))))
      = Some (File (data (stream video_file)) mtime).
Proof.
  intros Hvalid Hid Hpos Hcreate.
  set (stamp := strftime_stamp (clock w (tick w))) in *.
  set (name := video_name lib device_id stamp) in *.
  set (path := os_path_join UPLOAD_DIR name) in *.
  pose (w1 := World (<[path := File (data (stream video_file)) (clock w (S (tick w)))]>
                       (store w))
                    (clock w) (S (tick w)) (skipn 2 (plan w))).
  assert (Hvideo : persist_video lib (JObj fields) video_file w
                   = (Ok (length (data (stream video_file)), stamp, name), w1)).
  { apply persist_video_spec. exists device_id.
    split; [now apply getitem_present|]. cbv zeta.
    split; [exact Hcreate|]. split; [|reflexivity].
    now rewrite Hpos. }
  destruct (save_to_txt_file_total lib (JObj fields) (filename video_file)
              (length (data (stream video_file))) stamp w1) as (r & w2 & Htxt).
  destruct (verify_saved lib _ _ _ _ _ _ _ _ _ _ Hvalid Hvideo Htxt)
    as (device_id' & Hid' & Hresp).
  eexists _, _, (clock w (S (tick w))). split; [exact Hresp|].
  split; [reflexivity|]. split; [reflexivity|].
  cbn [store]. eapply video_survives_transcript; [|exact Htxt].
  subst w1. cbn [store]. apply lookup_insert_eq.
Qed.


(** C4, as amended: when a valid submission whose video has been saved
    has a [gps_location] object without the [latitude] or the [longitude]
    key, the [KeyError] is caught inside [save_to_txt_file]: the request
    is acknowledged with 200 and [received_ok], and [data_saved_as] is
    [failed]. *)
Theorem missing_coordinate_is_swallowed (request : Request)
    (fields gps : list (string * json)) (video_file : FileStorage)
    (w w1 : world) (size : nat) (timestamp name : string) :
  valid_submission lib request fields video_file ->
  dict_lookup "gps_location" fields = Some (JObj gps) ->
  ~ has_key "latitude" gps \/ ~ has_key "longitude" gps ->
  persist_video lib (JObj fields) video_file w = (Ok (size, timestamp, name), w1) ->
  exists response w',
    verify_endpoint lib request w = (response, w') /\
    status_of response = 200 /\
    json_field "status" response = Some (JStr "received_ok") /\
    json_field "data_saved_as" response = Some (JStr "failed").
Proof.
  intros Hvalid Hgps Hkey Hvideo.
  assert (Hnone : forall k, ~ has_key k gps -> exists e, py_getitem (JObj gps) k = Raise e).
  { intros k Hk. exists (KeyError k). apply getitem_absent.
    destruct (dict_lookup k gps) as [v|] eqn:E; [|reflexivity].
    exfalso. apply Hk, has_key_lookup. eauto. }
  destruct (save_to_txt_file_gps_fault lib fields (JObj gps) (filename video_file)
              size timestamp Hgps) with (w := w1) as [w2 Htxt].
  { destruct Hkey as [H|H]; [left|right]; now apply Hnone. }
  destruct (verify_saved lib _ _ _ _ _ _ _ _ _ _ Hvalid Hvideo Htxt)
    as (device_id & Hid & Hresp).
  eexists _, _. split; [exact Hresp|]. repeat split.
Qed.

End Submit.

(** ** Rejections *)

Lemma returns_bind {A B} (Q : B -> Prop) (m : M A) (k : A -> M B) :
  (forall a, returns Q (k a)) -> returns Q (bind m k).
Proof.
  intros Hk w b w'. unfold bind. destruct (m w) as [[a|e] w1]; [apply Hk|discriminate].
Qed.

Lemma returns_ret {A} (Q : A -> Prop) (a : A) : Q a -> returns Q (ret a).
Proof. intros H w x w' [= <- _]. exact H. Qed.

Section Rejections.

Context (lib : PyLib).



(** C2, as amended: when the [data] field of a multipart POST decodes to a
    JSON object and [field] is the first of [device_id], [is_compromised],
    [gps_location], [ip_address], in that order, that is not a key of it,
    the response is the 400 [Missing required field: field], and the world
    is left as it was: no file is written. *)
Theorem first_missing_field_is_reported (request : Request)
    (fields : list (string * json)) (pre post : list string) (field : string)
    (w : world) :
  method request = "POST" ->
  content_type_ok (content_type request) = true ->
  (exists json_data, multidict_get "data" (form request) = Some json_data /\
                     json_loads lib json_data = Ok (JObj fields)) ->
  required_fields = (pre ++ field :: post)%list ->
  (forall k, k ∈ pre -> has_key k fields) ->
  ~ has_key field fields ->
  verify_endpoint lib request w
  = (JsonResponse 400 (error_body ("Missing required field: " +:+ field)), w).
Proof.
  intros Hm Hct (s & Hs & Hl) Hreq Hpre Hf.
  unfold verify_endpoint, verify_body. rewrite Hm, Hct, Hs, Hl, Hreq.
  cbn [String.eqb negb].
  now rewrite (check_required_fields_first pre post field fields Hpre Hf).
Qed.

Lemma acknowledge_returns_200 device_data video_file saved :
  returns (fun r => status_of r = 200) (acknowledge lib device_data video_file saved).
Proof.
  destruct saved as [[size timestamp] name]. unfold acknowledge.
  repeat (apply returns_bind; intros ?). now apply returns_ret.
Qed.

(** What [receive_video] can answer. *)
Lemma receive_video_returns request device_data :
  returns (fun r => status_of r = 200 \/
                    r = JsonResponse 400 (error_body "Missing 'liveness_video' file") \/
                    r = JsonResponse 400 (error_body "No video file selected"))
          (receive_video lib request device_data).
Proof.
  unfold receive_video.
  destruct (multidict_get "liveness_video" (files request)) as [video_file|].
  - destruct (String.eqb (filename video_file) "").
    + apply returns_ret. auto.
    + repeat (apply returns_bind; intros ?).
      intros w r w' H. left. exact (acknowledge_returns_200 _ _ _ _ _ _ H).
  - apply returns_ret. auto.
Qed.

(** C10: when the [data] object of a multipart POST has the four keys
    [device_id], [is_compromised], [gps_location], [ip_address], whatever
    values they are bound to, the required-field loop finds nothing
    missing, the handler goes on to the video checks, and its response is
    not a [Missing required field] error. *)
Theorem presence_is_key_membership (request : Request)
    (fields : list (string * json)) (w : world) :
  method request = "POST" ->
  content_type_ok (content_type request) = true ->
  (exists json_data, multidict_get "data" (form request) = Some json_data /\
                     json_loads lib json_data = Ok (JObj fields)) ->
  (forall k, k ∈ required_fields -> k ∈ fields.*1) ->
  check_required_fields required_fields (JObj fields) = Ok None /\
  verify_endpoint lib request w
  = handle (receive_video lib request (JObj fields)) (internal_error lib) w /\
  forall field,
    fst (verify_endpoint lib request w)
    <> JsonResponse 400 (error_body ("Missing required field: " +:+ field)).
Proof.
  intros Hm Hct (s & Hs & Hl) Hkeys.
  assert (Hc : check_required_fields required_fields (JObj fields) = Ok None)
    by now apply check_required_fields_None.
  assert (Hv : verify_endpoint lib request w
               = handle (receive_video lib request (JObj fields)) (internal_error lib) w).
  { unfold verify_endpoint, verify_body. now rewrite Hm, Hct, Hs, Hl, Hc. }
  split; [exact Hc|]. split; [exact Hv|].
  intros field. rewrite Hv. unfold handle.
  destruct (receive_video lib request (JObj fields) w) as [[r|e] w'] eqn:E; cbn [fst].
  - apply receive_video_returns in E as [H | [-> | ->]]; try discriminate.
    intros ->. discriminate.
  - discriminate.
Qed.

End Rejections.

(** ** The names of the stored pair *)

Section Naming.

Context (lib : PyLib).

(** In a flat upload directory a video can only be created under a name
    without separator, so the text of its [device_id] has none. *)
Lemma flat_device_id_no_slash (w : world) (device_id : json) (timestamp : string) :
  flat (store w) ->
  can_create w (os_path_join UPLOAD_DIR (video_name lib device_id timestamp)) = true ->
  has_slash (py_str lib device_id) = false.
Proof.
  intros Hflat Hc. unfold can_create in Hc.
  apply andb_true_iff in Hc as [Hc _]. apply andb_true_iff in Hc as [_ Hdir].
  assert (Hn : has_slash (video_name lib device_id timestamp) = false).
  { apply parent_is_upload_dir; [reflexivity|].
    unfold is_dir in Hdir. apply orb_true_iff in Hdir as [Hdir|Hdir].
    - left. now apply String.eqb_eq.
    - right. apply Hflat.
      destruct (store w !! _) as [[c t|]|]; try discriminate. reflexivity. }
  unfold video_name in Hn. rewrite !has_slash_app in Hn.
  apply orb_false_iff in Hn as [_ Hn]. now apply orb_false_iff in Hn as [Hn _].
Qed.

Lemma digit_no_slash (n : N) : has_slash (digit n) = false.
Proof.
  unfold digit. cbn [has_slash]. rewrite orb_false_r.
  assert (H : (n mod 10 < 10)%N) by (apply N.mod_lt; lia).
  set (r := (n mod 10)%N) in *.
  assert (Hr : (r = 0 \/ r = 1 \/ r = 2 \/ r = 3 \/ r = 4 \/ r = 5 \/ r = 6 \/
                r = 7 \/ r = 8 \/ r = 9)%N) by lia.
  destruct Hr as [->|[->|[->|[->|[->|[->|[->|[->|[->| ->]]]]]]]]]; reflexivity.
Qed.

Lemma pad2_no_slash (n : N) : has_slash (pad2 n) = false.
Proof. unfold pad2. now rewrite has_slash_app, !digit_no_slash. Qed.

Lemma pad4_no_slash (n : N) : has_slash (pad4 n) = false.
Proof. unfold pad4. now rewrite !has_slash_app, !digit_no_slash, pad2_no_slash. Qed.

Lemma stamp_no_slash (t : datetime) : has_slash (strftime_stamp t) = false.
Proof.
  unfold strftime_stamp.
  now rewrite !has_slash_app, pad4_no_slash, !pad2_no_slash.
Qed.

Lemma video_name_no_slash (device_id : json) (t : datetime) :
  has_slash (py_str lib device_id) = false ->
  has_slash (video_name lib device_id (strftime_stamp t)) = false.
Proof.
  intros H. unfold video_name. now rewrite !has_slash_app, H, stamp_no_slash.
Qed.

Lemma transcript_name_no_slash (device_id : json) (t : datetime) :
  has_slash (py_str lib device_id) = false ->
  has_slash (transcript_name lib device_id (strftime_stamp t)) = false.
Proof.
  intros H. unfold transcript_name. now rewrite !has_slash_app, H, stamp_no_slash.
Qed.

Lemma basename_transcript (device_id : json) (timestamp : string) :
  has_slash (transcript_name lib device_id timestamp) = false ->
  os_path_basename (os_path_join UPLOAD_DIR (transcript_name lib device_id timestamp))
  = transcript_name lib device_id timestamp.
Proof.
  intros H. unfold transcript_name at 1. rewrite transcript_path_eq.
  exact (basename_in_dir "uploads" _ H).
Qed.

(** C6, as amended: when a valid submission to a flat upload directory
    has its video saved, one timestamp, the clock reading taken before the
    video is saved, is in both names. The response is a 200 whose
    [video_saved_as] is [mobile_liveness_{device_id}_{timestamp}.mp4], a
    file of the upload directory; when the transcript was written in full
    its [data_saved_as] is [device_data_{device_id}_{timestamp}.txt], a
    file of the upload directory too, and otherwise it is [failed]. *)
Theorem stored_pair_shares_one_timestamp (request : Request)
    (fields : list (string * json)) (video_file : FileStorage) (device_id : json)
    (w w1 w2 : world) (size : nat) (timestamp name : string) (r : option string) :
  valid_submission lib request fields video_file ->
  dict_lookup "device_id" fields = Some device_id ->
  flat (store w) ->
  persist_video lib (JObj fields) video_file w = (Ok (size, timestamp, name), w1) ->
  save_to_txt_file lib (JObj fields) (filename video_file) size timestamp w1
    = (Ok r, w2) ->
  exists response w',
    verify_endpoint lib request w = (response, w') /\
    status_of response = 200 /\
    timestamp = strftime_stamp (clock w (tick w)) /\
    json_field "video_saved_as" response
      = Some (JStr (video_name lib device_id timestamp)) /\
    is_file (store w') (os_path_join UPLOAD_DIR (video_name lib device_id timestamp))
      = true /\
    match r with
    | Some _ =>
        json_field "data_saved_as" response
          = Some (JStr (transcript_name lib device_id timestamp)) /\
        is_file (store w')
          (os_path_join UPLOAD_DIR (transcript_name lib device_id timestamp)) = true
    | None => json_field "data_saved_as" response = Some (JStr "failed")
    end.
Proof.
  intros Hvalid Hid Hflat Hvideo Htxt.
  destruct (verify_saved lib _ _ _ _ _ _ _ _ _ _ Hvalid Hvideo Htxt)
    as (device_id' & Hid' & Hresp).
  assert (device_id' = device_id) as -> by congruence.
  apply persist_video_spec in Hvideo as (id & Hget & Hcreate & Hsaved & Hw1).
  rewrite (getitem_present _ _ _ Hid) in Hget. injection Hget as <-.
  injection Hsaved as -> -> ->.
  assert (Hslash := flat_device_id_no_slash _ _ _ Hflat Hcreate).
  eexists _, _. split; [exact Hresp|].
  split; [reflexivity|]. split; [reflexivity|]. split; [reflexivity|].
  split.
  - cbn [store]. unfold is_file.
    erewrite video_survives_transcript; [reflexivity| |exact Htxt].
    subst w1. cbn [store]. apply lookup_insert_eq.
  - destruct r as [p|]; [|reflexivity].
    destruct (save_to_txt_file_Some lib _ _ _ _ _ _ _ Htxt) as (id & Hget & Hp & Hfile).
    rewrite (getitem_present _ _ _ Hid) in Hget. injection Hget as <-.
    split.
    + cbn [json_field acknowledgment dict_lookup find String.eqb Ascii.eqb Bool.eqb
           fst snd fmap option_fmap option_map].
      rewrite Hp, basename_transcript; [reflexivity|].
      now apply transcript_name_no_slash.
    + cbn [store]. now rewrite <- Hp.
Qed.

End Naming.

(** ** Downloads *)

Section Downloads.

Context (lib : PyLib).

(** A stored plain name is served with exactly the bytes stored under
    it, when reading the file does not fail. *)
Lemma download_stored (name : string) (w : world) (bytes : list byte) (mtime : datetime) :
  has_slash name = false -> name <> ".." ->
  store w !! os_path_join UPLOAD_DIR name = Some (File bytes mtime) ->
  no_fault 1 (plan w) = true ->
  fst (download_file lib name w) = FileResponse 200 bytes.
Proof.
  intros Hs Hdd Hin Hplan.
  unfold download_file, handle, bind, send_from_directory.
  rewrite (safe_join_plain _ Hs Hdd), Hin.
  destruct w as [st ck tk pl]. unfold io_step. cbn [plan] in *.
  destruct pl as [|[m|] rest]; [reflexivity|discriminate|reflexivity].
Qed.

Lemma not_dotdot_prefix (c : ascii) (x y : string) :
  Ascii.eqb c "." = false -> String c x <> "..".
Proof. intros H [= -> _]. discriminate. Qed.

(** C8: after a valid submission to a flat upload directory is
    acknowledged, every name the response returns as [video_saved_as] or
    [data_saved_as] (the marker [failed] is not a name) is a file of the
    upload directory, and [download_file] answers 200 with exactly the
    bytes stored under it, which for the video are the submitted bytes.
    The read of the file is not scheduled to fail. *)
Theorem returned_names_download_stored_bytes (request : Request)
    (fields : list (string * json)) (video_file : FileStorage) (device_id : json)
    (w w1 w2 w' : world) (size : nat) (timestamp name saved_name : string)
    (r : option string) (response : response) :
  valid_submission lib request fields video_file ->
  dict_lookup "device_id" fields = Some device_id ->
  flat (store w) ->
  persist_video lib (JObj fields) video_file w = (Ok (size, timestamp, name), w1) ->
  save_to_txt_file lib (JObj fields) (filename video_file) size timestamp w1
    = (Ok r, w2) ->
  verify_endpoint lib request w = (response, w') ->
  no_fault 1 (plan w') = true ->
  json_field "video_saved_as" response = Some (JStr saved_name) \/
  json_field "data_saved_as" response = Some (JStr saved_name) ->
  saved_name <> "failed" ->
  exists bytes mtime,
    store w' !! os_path_join UPLOAD_DIR saved_name = Some (File bytes mtime) /\
    fst (download_file lib saved_name w') = FileResponse 200 bytes /\
    (json_field "video_saved_as" response = Some (JStr saved_name) ->
     bytes = data (stream video_file)).
Proof.
  intros Hvalid Hid Hflat Hvideo Htxt Hresp Hplan Hname Hnf.
  destruct (verify_saved lib _ _ _ _ _ _ _ _ _ _ Hvalid Hvideo Htxt)
    as (device_id' & Hid' & Hresp').
  assert (device_id' = device_id) as -> by congruence.
  rewrite Hresp in Hresp'. injection Hresp' as -> ->.
  apply persist_video_spec in Hvideo as (id & Hget & Hcreate & Hsaved & Hw1).
  rewrite (getitem_present _ _ _ Hid) in Hget. injection Hget as <-.
  injection Hsaved as -> -> ->.
  assert (Hslash := flat_device_id_no_slash lib _ _ _ Hflat Hcreate).
  set (stamp := strftime_stamp (clock w (tick w))) in *.
  assert (Hv : store w2 !! os_path_join UPLOAD_DIR (video_name lib device_id stamp)
               = Some (File (data (stream video_file)) (clock w (S (tick w))))).
  { eapply video_survives_transcript; [|exact Htxt].
    subst w1. cbn [store]. apply lookup_insert_eq. }
  assert (Hvs : json_field "video_saved_as"
                  (JsonResponse 200
                     (acknowledgment (clock w2 (tick w2)) device_id
                        (length (skipn (pos (stream video_file)) (data (stream video_file))))
                        (video_name lib device_id stamp)
                        match r with Some p => os_path_basename p | None => "failed" end))
                = Some (JStr (video_name lib device_id stamp))) by reflexivity.
  assert (Hds : json_field "data_saved_as"
                  (JsonResponse 200
                     (acknowledgment (clock w2 (tick w2)) device_id
                        (length (skipn (pos (stream video_file)) (data (stream video_file))))
                        (video_name lib device_id stamp)
                        match r with Some p => os_path_basename p | None => "failed" end))
                = Some (JStr match r with Some p => os_path_basename p | None => "failed" end))
    by reflexivity.
  rewrite Hvs, Hds in Hname. rewrite Hvs.
  destruct Hname as [[= <-] | [= Hd]].
  - exists (data (stream video_file)), (clock w (S (tick w))).
    split; [exact Hv|]. split; [|reflexivity].
    eapply download_stored; [| |exact Hv|exact Hplan].
    + now apply video_name_no_slash.
    + unfold video_name. now apply not_dotdot_prefix.
  - destruct r as [p|]; [|congruence].
    destruct (save_to_txt_file_Some lib _ _ _ _ _ _ _ Htxt) as (id & Hget & Hp & Hfile).
    rewrite (getitem_present _ _ _ Hid) in Hget. injection Hget as <-.
    assert (Hns : has_slash (transcript_name lib device_id stamp) = false)
      by now apply transcript_name_no_slash.
    rewrite Hp, (basename_transcript lib _ _ Hns) in Hd. subst saved_name.
    rewrite <- Hp. unfold is_file in Hfile.
    destruct (store w2 !! p) as [[bytes mtime|]|] eqn:E; try discriminate.
    exists bytes, mtime. cbn [store]. split; [exact E|]. split.
    + eapply download_stored; [exact Hns| |rewrite <- Hp; exact E|exact Hplan].
      unfold transcript_name. now apply not_dotdot_prefix.
    + unfold video_name, transcript_name. intros [= Heq].
Qed.

(** C9: a name that does not resolve to a regular file of the upload
    directory gets the 404 response carrying the text of [NotFound], and
    the world is left as it was. The handler itself checks and cleans
    nothing: it answers with whatever [send_from_directory] makes of the
    name as given, here [NotFound]. *)
Theorem missing_file_is_not_found (filename : string) (w : world) :
  names_file (store w) filename = false ->
  download_file lib filename w
  = (JsonResponse 404 (error_body (str_exc lib NotFound)), w) /\
  send_from_directory UPLOAD_DIR filename w = (Raise NotFound, w) /\
  download_file lib filename w
  = handle (let* content := send_from_directory UPLOAD_DIR filename in
            ret (FileResponse 200 content))
           (fun e => JsonResponse 404 (error_body (str_exc lib e))) w.
Proof.
  intros H. unfold names_file in H.
  assert (Hs : send_from_directory UPLOAD_DIR filename w = (Raise NotFound, w)).
  { unfold send_from_directory. destruct (safe_join UPLOAD_DIR filename) as [p|];
      [|reflexivity].
    unfold is_file in H. destruct (store w !! p) as [[c t|]|]; [discriminate|reflexivity..]. }
  split; [|split; [exact Hs|reflexivity]].
  unfold download_file, handle. now rewrite (bind_raise _ _ _ _ _ Hs).
Qed.

(** A plain name with no regular file under it is such a name. *)
Lemma plain_name_without_file (st : gmap string node) (name : string) :
  has_slash name = false ->
  is_file st (os_path_join UPLOAD_DIR name) = false ->
  names_file st name = false.
Proof.
  intros Hs Hf. unfold names_file.
  destruct (String.eqb_spec name "..") as [->|Hdd]; [reflexivity|].
  now rewrite (safe_join_plain _ Hs Hdd).
Qed.

End Downloads.

(** ** The listing *)

Section ListFacts.

Context {A B C : Type}.

Lemma NoDup_omap_on (key : A -> C) (f : A -> option B) (l : list A) :
  NoDup (key <$> l) ->
  (forall x y z, f x = Some z -> f y = Some z -> key x = key y) ->
  NoDup (omap f l).
Proof.
  intros Hnd Hinj. induction l as [|x l IH]; cbn [omap list_omap]; [constructor|].
  cbn [fmap list_fmap] in Hnd. apply NoDup_cons in Hnd as [Hx Hnd].
  destruct (f x) as [z|] eqn:E; [|now apply IH].
  apply NoDup_cons. split; [|now apply IH].
  intros Hz. apply list_elem_of_omap in Hz as (y & Hy & Hfy).
  apply Hx. rewrite (Hinj x y z E Hfy). now apply list_elem_of_fmap_2.
Qed.

Lemma length_omap_filter (f : A -> option B) (P : A -> Prop)
    `{forall x, Decision (P x)} (l : list A) :
  (forall x, x ∈ l -> (is_Some (f x) <-> P x)) ->
  length (omap f l) = length (filter P l).
Proof.
  induction l as [|x l IH]; intros Hl; [reflexivity|].
  cbn [omap list_omap]. rewrite filter_cons.
  assert (Hx : is_Some (f x) <-> P x) by (apply Hl; now left).
  assert (IH' : length (omap f l) = length (filter P l))
    by (apply IH; intros y Hy; apply Hl; now right).
  destruct (f x) as [z|] eqn:E; destruct (decide (P x)) as [HP|HP]; cbn [length].
  - now rewrite IH'.
  - exfalso. apply HP, Hx. eauto.
  - exfalso. apply Hx in HP as [? [=]].
  - exact IH'.
Qed.

Lemma omap_omap (g : A -> option B) (f : B -> option C) (l : list A) :
  omap f (omap g l) = omap (fun x => match g x with Some y => f y | None => None end) l.
Proof.
  induction l as [|x l IH]; [reflexivity|]. cbn [omap list_omap].
  destruct (g x) as [y|]; [|exact IH]. cbn [omap list_omap].
  destruct (f y); now rewrite IH.
Qed.

End ListFacts.

Lemma size_filter_map_to_list (P : string * node -> Prop) `{forall x, Decision (P x)}
    (st : gmap string node) :
  size (filter P st) = length (filter P (map_to_list st)).
Proof.
  rewrite <- length_map_to_list, map_filter_alt.
  apply Permutation_length, map_to_list_to_map.
  eapply sublist_NoDup; [apply (NoDup_fst_map_to_list st)|].
  apply fmap_sublist, sublist_filter.
Qed.

Section Listing.

Context (lib : PyLib).

(** The loop of [list_files] keeps the entries of the names that are
    regular files, in order. *)
Lemma collect_files_omap (st : gmap string node) (names : list string) :
  collect_files st names = omap (file_entry st) names.
Proof.
  unfold collect_files.
  assert (H : forall acc,
             fold_left (fun files filename =>
                          match file_entry st filename with
                          | Some entry => (files ++ [entry])%list
                          | None => files
                          end) names acc
             = (acc ++ omap (file_entry st) names)%list).
  { induction names as [|n names IH]; intros acc; cbn [fold_left omap list_omap].
    - now rewrite app_nil_r.
    - rewrite IH. destruct (file_entry st n) as [e|]; [|reflexivity].
      now rewrite <- app_assoc. }
  apply (H []).
Qed.

Lemma file_entry_Some (st : gmap string node) (name : string) (e : json) :
  file_entry st name = Some e <->
  exists content mtime,
    st !! os_path_join UPLOAD_DIR name = Some (File content mtime) /\
    e = listing_entry name content mtime.
Proof.
  unfold file_entry.
  destruct (st !! os_path_join UPLOAD_DIR name) as [[c t|]|].
  - split.
    + intros [= <-]. now exists c, t.
    + intros (c' & t' & [= <- <-] & ->). reflexivity.
  - split; [discriminate | intros (? & ? & [=] & _)].
  - split; [discriminate | intros (? & ? & [=] & _)].
Qed.

Lemma child_path (name : string) :
  has_slash name = false ->
  os_path_join UPLOAD_DIR name = UPLOAD_DIR +:+ "/" +:+ name.
Proof. intros H. now rewrite (join_upload_dir _ (starts_with_slash_no_slash _ H)). Qed.

Lemma entry_of_item_Some (st : gmap string node) (kv : string * node) (e : json) :
  st !! fst kv = Some (snd kv) ->
  entry_of_item st kv = Some e <->
  exists name content mtime,
    name <> "" /\ has_slash name = false /\
    fst kv = os_path_join UPLOAD_DIR name /\ snd kv = File content mtime /\
    e = listing_entry name content mtime.
Proof.
  intros Hkv. unfold entry_of_item. split.
  - destruct (child_name UPLOAD_DIR (fst kv)) as [name|] eqn:E; [|discriminate].
    apply child_name_Some in E as (Hk & Hne & Hs).
    rewrite <- (child_path _ Hs) in Hk.
    intros He. apply file_entry_Some in He as (c & t & Hin & ->).
    exists name, c, t. repeat split; try assumption. congruence.
  - intros (name & c & t & Hne & Hs & Hk & Hnd & ->).
    assert (E : child_name UPLOAD_DIR (fst kv) = Some name).
    { apply child_name_Some. rewrite Hk, (child_path _ Hs). auto. }
    rewrite E. apply file_entry_Some. exists c, t. split; [congruence|reflexivity].
Qed.

Lemma listing_entry_name (n1 n2 : string) c1 c2 t1 t2 :
  listing_entry n1 c1 t1 = listing_entry n2 c2 t2 -> n1 = n2.
Proof. now intros [= ->]. Qed.

Lemma os_listdir_ok (dir : string) (w : world) :
  store w !! dir = Some Directory ->
  no_fault 1 (plan w) = true ->
  exists w',
    os_listdir lib dir w
    = (Ok (omap (fun kv => child_name dir (fst kv)) (map_to_list (store w))), w') /\
    store w' = store w.
Proof.
  intros Hdir Hplan. destruct w as [st ck tk pl]. cbn [store plan] in *.
  unfold os_listdir. unfold bind, io_step. cbn [plan].
  destruct pl as [|[m|] rest]; cbn [store]; try (cbv in Hplan; discriminate Hplan);
    rewrite Hdir; eexists; split; reflexivity.
Qed.

(** C7: when the upload directory is there and reading it does not fail,
    [list_files] answers 200 with a list [files] and a [count] that is the
    length of that list; the store is left as it was; the list has, without
    repetition, exactly the entries [{name, size, modified}] of the regular
    files that are entries of the upload directory itself (directories and
    what lies deeper are left out), with [size] the byte length and
    [modified] the ISO-8601 text of the modification time; and its length
    is the number of those files. *)
Theorem listing_counts_regular_files (w : world) :
  store w !! UPLOAD_DIR = Some Directory ->
  no_fault 1 (plan w) = true ->
  exists files w',
    list_files lib w
    = (JsonResponse 200 (JObj [("files", JArr files);
                               ("count", JInt (Z.of_nat (length files)))]), w') /\
    store w' = store w /\
    length files = size (regular_files (store w)) /\
    NoDup files /\
    forall e, e ∈ files <->
      exists name content mtime,
        name <> "" /\ has_slash name = false /\
        store w !! os_path_join UPLOAD_DIR name = Some (File content mtime) /\
        e = listing_entry name content mtime.
Proof.
  intros Hdir Hplan. destruct w as [st ck tk pl]. cbn [store plan] in *.
  set (items := map_to_list st).
  set (files := omap (entry_of_item st) items).
  assert (Hrun : exists w',
    list_files lib (World st ck tk pl)
    = (JsonResponse 200 (JObj [("files", JArr files);
                               ("count", JInt (Z.of_nat (length files)))]), w') /\
    store w' = st).
  { destruct (os_listdir_ok UPLOAD_DIR (World st ck tk pl) Hdir Hplan) as (w' & Hls & Hst).
    exists w'. split; [|exact Hst].
    unfold list_files. apply handle_ok. rewrite (bind_ok _ _ _ _ _ Hls).
    rewrite Hst, collect_files_omap, omap_omap. reflexivity. }
  destruct Hrun as (w' & Hrun & Hst).
  assert (Hitem : forall kv, kv ∈ items -> st !! fst kv = Some (snd kv)).
  { intros kv Hkv. now apply elem_of_map_to_list'. }
  exists files, w'. split; [exact Hrun|]. split; [exact Hst|]. split; [|split].
  - unfold regular_files. rewrite size_filter_map_to_list. fold items.
    apply length_omap_filter. intros kv Hkv. split.
    + intros [e He]. apply (entry_of_item_Some st kv e (Hitem kv Hkv)) in He
        as (name & c & t & Hne & Hs & Hk & Hnd & _).
      split; [|now rewrite Hnd].
      exists name. apply child_name_Some. rewrite Hk, (child_path _ Hs). auto.
    + intros [[name Hname] Hreg].
      destruct (snd kv) as [c t|] eqn:Hnd; [|discriminate].
      exists (listing_entry name c t).
      apply (entry_of_item_Some st kv _ (Hitem kv Hkv)).
      apply child_name_Some in Hname as (Hk & Hne & Hs).
      exists name, c, t. rewrite (child_path _ Hs). auto.
  - apply (NoDup_omap_on fst); [apply NoDup_fst_map_to_list|].
    intros x y e Hx Hy.
    unfold entry_of_item in Hx, Hy.
    destruct (child_name UPLOAD_DIR (fst x)) as [nx|] eqn:Ex; [|discriminate].
    destruct (child_name UPLOAD_DIR (fst y)) as [ny|] eqn:Ey; [|discriminate].
    apply file_entry_Some in Hx as (cx & tx & _ & ->).
    apply file_entry_Some in Hy as (cy & ty & _ & Heq).
    apply listing_entry_name in Heq as ->.
    apply child_name_Some in Ex as [-> _]. apply child_name_Some in Ey as [-> _].
    reflexivity.
  - intros e. unfold files. rewrite list_elem_of_omap. split.
    + intros (kv & Hkv & He).
      apply (entry_of_item_Some st kv e (Hitem kv Hkv)) in He
        as (name & c & t & Hne & Hs & Hk & Hnd & ->).
      exists name, c, t. repeat split; try assumption.
      rewrite <- Hk, <- Hnd. now apply Hitem.
    + intros (name & c & t & Hne & Hs & Hin & ->).
      exists (os_path_join UPLOAD_DIR name, File c t). split.
      * now apply elem_of_map_to_list.
      * apply entry_of_item_Some; [exact Hin|]. exists name, c, t. auto.
Qed.

End Listing.

(** * Further properties of the handlers *)

(** ** Every outcome of a submission *)

Section Outcomes.

Context (lib : PyLib).

Lemma getitem_object (v x : json) (k : string) :
  py_getitem v k = Ok x -> exists fields, v = JObj fields.
Proof. destruct v; try discriminate. eauto. Qed.

Lemma verify_post_outcome (request : Request) (w : world) :
  method request = "POST" ->
  verify_outcome lib request w (verify_endpoint lib request w).
Proof.
  intros Hm.
  destruct (content_type_ok (content_type request)) eqn:Hct.
  2:{ unfold verify_endpoint, verify_body. rewrite Hm, Hct. exact (Rejected _ _ _ _). }
  destruct (multidict_get "data" (form request)) as [json_data|] eqn:Hdata.
  2:{ unfold verify_endpoint, verify_body. rewrite Hm, Hct, Hdata. exact (Rejected _ _ _ _). }
  destruct (json_loads lib json_data) as [device_data|e] eqn:Hloads.
  2:{ unfold verify_endpoint, verify_body. rewrite Hm, Hct, Hdata, Hloads.
      destruct e; first [exact (Rejected _ _ _ _) | exact (Crashed _ _ _ _)]. }
  destruct (check_required_fields required_fields device_data) as [[field|]|e] eqn:Hcheck.
  1:{ unfold verify_endpoint, verify_body. rewrite Hm, Hct, Hdata, Hloads, Hcheck.
      exact (Rejected _ _ _ _). }
  2:{ unfold verify_endpoint, verify_body. rewrite Hm, Hct, Hdata, Hloads, Hcheck.
      exact (Crashed _ _ _ _). }
  destruct (multidict_get "liveness_video" (files request)) as [video_file|] eqn:Hvideo.
  2:{ unfold verify_endpoint, verify_body, receive_video.
      rewrite Hm, Hct, Hdata, Hloads, Hcheck, Hvideo. exact (Rejected _ _ _ _). }
  destruct (String.eqb_spec (filename video_file) "") as [Hname|Hname].
  1:{ unfold verify_endpoint, verify_body, receive_video.
      rewrite Hm, Hct, Hdata, Hloads, Hcheck, Hvideo, Hname. exact (Rejected _ _ _ _). }
  destruct (py_getitem device_data "device_id") as [x|e] eqn:Hid.
  - apply getitem_object in Hid as [fields ->].
    assert (Hvalid : valid_submission lib request fields video_file).
    { constructor; try assumption.
      - exists json_data. auto.
      - now apply check_required_fields_None. }
    rewrite (verify_valid lib _ _ _ w Hvalid). now apply Received.
  - unfold verify_endpoint, verify_body, receive_video.
    rewrite Hm, Hct, Hdata, Hloads, Hcheck, Hvideo.
    apply String.eqb_neq in Hname. rewrite Hname, Hid.
    exact (Crashed _ _ _ _).
Qed.

(** Past the checks the answer is a 500 with nothing acknowledged, or the
    200 acknowledgment. *)
Lemma received_cases (request : Request) (fields : list (string * json))
    (video_file : FileStorage) (w : world) :
  valid_submission lib request fields video_file ->
  (exists e w1,
     persist_video lib (JObj fields) video_file w = (Raise e, w1) /\
     verify_endpoint lib request w = (internal_error lib e, w1)) \/
  (exists size timestamp name w1 r w2 device_id,
     persist_video lib (JObj fields) video_file w = (Ok (size, timestamp, name), w1) /\
     save_to_txt_file lib (JObj fields) (filename video_file) size timestamp w1
       = (Ok r, w2) /\
     dict_lookup "device_id" fields = Some device_id /\
     verify_endpoint lib request w =
     (JsonResponse 200
        (acknowledgment (clock w2 (tick w2)) device_id size name
           (match r with Some p => os_path_basename p | None => "failed" end)),
      World (store w2) (clock w2) (S (tick w2)) (plan w2))).
Proof.
  intros Hvalid.
  destruct (persist_video lib (JObj fields) video_file w) as [[[[size timestamp] name]|e] w1]
    eqn:Hvideo.
  - right.
    destruct (save_to_txt_file_total lib (JObj fields) (filename video_file) size
                timestamp w1) as (r & w2 & Htxt).
    destruct (verify_saved lib _ _ _ _ _ _ _ _ _ _ Hvalid Hvideo Htxt)
      as (device_id & Hid & Hresp).
    exists size, timestamp, name, w1, r, w2, device_id. auto.
  - left. exists e, w1. split; [reflexivity|].
    rewrite (verify_valid lib _ _ _ w Hvalid). unfold handle.
    now rewrite (bind_raise _ _ _ _ _ Hvideo).
Qed.

(** X1: a POST is answered with 200, 400 or 500. A 400 leaves the world
    exactly as it was: no file is written and the clock is not read. A
    500 is the JSON error [Internal server error]. *)
Theorem post_status_and_rejection (request : Request) (w : world) :
  method request = "POST" ->
  (status_of (fst (verify_endpoint lib request w)) = 200 \/
   status_of (fst (verify_endpoint lib request w)) = 400 \/
   status_of (fst (verify_endpoint lib request w)) = 500) /\
  (status_of (fst (verify_endpoint lib request w)) = 400 ->
   snd (verify_endpoint lib request w) = w) /\
  (status_of (fst (verify_endpoint lib request w)) = 500 ->
   json_field "error" (fst (verify_endpoint lib request w))
   = Some (JStr "Internal server error")).
Proof.
  intros Hm. pose proof (verify_post_outcome request w Hm) as Ho.
  remember (verify_endpoint lib request w) as out eqn:Hout.
  destruct Ho as [msg|e|fields video_file Hvalid].
  - cbn. split; [auto|]. split; [reflexivity|discriminate].
  - cbn. split; [auto|]. split; [discriminate|reflexivity].
  - rewrite Hout.
    destruct (received_cases request fields video_file w Hvalid)
      as [(e & w1 & _ & ->) | (size & ts & name & w1 & r & w2 & id & _ & _ & _ & ->)];
      cbn; (split; [auto|]); (split; [discriminate|]); try reflexivity; discriminate.
Qed.

(** X2: a POST is never acknowledged with 200 unless the video is on
    disk: the request carries a [liveness_video] file, the response names
    a file in [video_saved_as], and that file of the upload directory
    holds all the bytes of the upload. *)
Theorem acknowledged_means_persisted (request : Request) (w w' : world)
    (response : response) :
  method request = "POST" ->
  verify_endpoint lib request w = (response, w') ->
  status_of response = 200 ->
  exists video_file name mtime,
    multidict_get "liveness_video" (files request) = Some video_file /\
    json_field "video_saved_as" response = Some (JStr name) /\
    store w' !! os_path_join UPLOAD_DIR name
      = Some (File (data (stream video_file)) mtime).
Proof.
  intros Hm Hrun Hstatus. pose proof (verify_post_outcome request w Hm) as Ho.
  rewrite Hrun in Ho. remember (response, w') as out eqn:Hout.
  destruct Ho as [msg|e|fields video_file Hvalid].
  - injection Hout as <- <-. discriminate Hstatus.
  - injection Hout as <- <-. discriminate Hstatus.
  - destruct (received_cases request fields video_file w Hvalid)
      as [(e & w1 & _ & Hresp) | (size & ts & name & w1 & r & w2 & id & Hvideo & Htxt & Hid & Hresp)];
      rewrite Hrun, Hout in Hresp; injection Hresp as -> ->; [discriminate Hstatus|].
    apply persist_video_spec in Hvideo as (id' & _ & _ & Hsaved & Hw1).
    injection Hsaved as -> -> ->.
    exists video_file, (video_name lib id' (strftime_stamp (clock w (tick w)))),
           (clock w (S (tick w))).
    split; [exact (valid_video _ _ _ _ Hvalid)|]. split; [reflexivity|].
    cbn [store]. eapply video_survives_transcript; [|exact Htxt].
    subst w1. cbn [store]. apply lookup_insert_eq.
Qed.

(** X3: only a JSON object is ever accepted. When the [data] field
    decodes to anything else (null, a boolean, a number, a string, an
    array, even one that contains the four field names), the POST is not
    acknowledged and the world is left exactly as it was. *)
Theorem only_objects_are_acknowledged (request : Request) (w : world)
    (json_data : string) (device_data : json) :
  method request = "POST" ->
  multidict_get "data" (form request) = Some json_data ->
  json_loads lib json_data = Ok device_data ->
  (forall fields, device_data <> JObj fields) ->
  status_of (fst (verify_endpoint lib request w)) <> 200 /\
  snd (verify_endpoint lib request w) = w.
Proof.
  intros Hm Hdata Hloads Hobj. pose proof (verify_post_outcome request w Hm) as Ho.
  remember (verify_endpoint lib request w) as out eqn:Hout.
  destruct Ho as [msg|e|fields video_file Hvalid].
  - cbn. split; [discriminate|reflexivity].
  - cbn. split; [discriminate|reflexivity].
  - exfalso. destruct (valid_data _ _ _ _ Hvalid) as (s & Hs & Hl).
    rewrite Hdata in Hs. injection Hs as <-. rewrite Hloads in Hl.
    injection Hl as ->. now apply (Hobj fields).
Qed.

(** X4: the rejections that come after the content type. A multipart
    POST without a [data] field gets [Missing 'data' part]. When [data]
    is an object with the four keys, a request without a [liveness_video]
    file gets [Missing 'liveness_video' file] and one whose file has an
    empty filename gets [No video file selected]. Each is a 400 that
    leaves the world as it was. *)
Theorem missing_parts_are_rejected (request : Request) (w : world) :
  method request = "POST" ->
  content_type_ok (content_type request) = true ->
  (multidict_get "data" (form request) = None ->
   verify_endpoint lib request w
   = (JsonResponse 400 (error_body "Missing 'data' part"), w)) /\
  (forall json_data fields,
     multidict_get "data" (form request) = Some json_data ->
     json_loads lib json_data = Ok (JObj fields) ->
     (forall k, k ∈ required_fields -> has_key k fields) ->
     (multidict_get "liveness_video" (files request) = None ->
      verify_endpoint lib request w
      = (JsonResponse 400 (error_body "Missing 'liveness_video' file"), w)) /\
     (forall video_file,
        multidict_get "liveness_video" (files request) = Some video_file ->
        filename video_file = "" ->
        verify_endpoint lib request w
        = (JsonResponse 400 (error_body "No video file selected"), w))).
Proof.
  intros Hm Hct. unfold verify_endpoint, verify_body, receive_video.
  rewrite Hm, Hct. cbn [String.eqb negb]. split.
  - intros ->. reflexivity.
  - intros json_data fields -> -> Hkeys.
    rewrite (proj2 (check_required_fields_None required_fields fields) Hkeys).
    split.
    + intros ->. reflexivity.
    + intros video_file -> ->. reflexivity.
Qed.

End Outcomes.

(** ** What a submission touches *)

Section Touches.

Context (lib : PyLib).

Lemma frame_file_save (s : Stream) (dst q : string) (x : option node) :
  dst <> q -> inv (on_store (fun st => st !! q = x)) (file_save lib s dst).
Proof.
  intros Hne. unfold file_save. apply inv_bind; [now apply frame_open|].
  intros _. now apply frame_write.
Qed.

Lemma file_save_keeps_files (s : Stream) (dst p : string) :
  inv (on_store (fun st => is_file st p = true)) (file_save lib s dst).
Proof.
  unfold file_save. apply inv_bind; [apply stays_file_open|].
  intros _. apply stays_file_write.
Qed.

(** The video stage changes the store at the video's path only. *)
Lemma persist_video_touches (device_data : json) (video_file : FileStorage)
    (w w1 : world) (r : result (nat * string * string)) (q : string) :
  persist_video lib device_data video_file w = (r, w1) ->
  (forall device_id, py_getitem device_data "device_id" = Ok device_id ->
     q <> video_path lib device_id (strftime_stamp (clock w (tick w)))) ->
  store w1 !! q = store w !! q.
Proof.
  unfold persist_video. cbn [stream_read]. unfold bind at 1, datetime_now.
  destruct (py_getitem device_data "device_id") as [device_id|e].
  - rewrite bind_lift_ok. intros Hrun Hq.
    assert (Hne : video_path lib device_id (strftime_stamp (clock w (tick w))) <> q).
    { intros E. now apply (Hq device_id). }
    unfold bind in Hrun.
    match type of Hrun with
    | context [file_save lib ?s ?dst ?w0] =>
        destruct (file_save lib s dst w0) as [[[]|e] w2] eqn:Hsave;
        pose proof (frame_file_save s dst q (store w !! q) Hne w0 _ _ eq_refl Hsave) as Hf
    end; injection Hrun as _ <-; exact Hf.
  - rewrite bind_lift_raise. intros [= _ <-] _. reflexivity.
Qed.

Lemma persist_video_keeps_files (device_data : json) (video_file : FileStorage)
    (w w1 : world) (r : result (nat * string * string)) (p : string) :
  persist_video lib device_data video_file w = (r, w1) ->
  is_file (store w) p = true -> is_file (store w1) p = true.
Proof.
  unfold persist_video. cbn [stream_read]. unfold bind at 1, datetime_now.
  destruct (py_getitem device_data "device_id") as [device_id|e].
  - rewrite bind_lift_ok. intros Hrun Hp. unfold bind in Hrun.
    match type of Hrun with
    | context [file_save lib ?s ?dst ?w0] =>
        destruct (file_save lib s dst w0) as [[[]|e] w2] eqn:Hsave;
        pose proof (file_save_keeps_files s dst p w0 _ _ Hp Hsave) as Hf
    end; injection Hrun as _ <-; exact Hf.
  - rewrite bind_lift_raise. intros [= _ <-] Hp. exact Hp.
Qed.

(** The transcript writer changes the store at the transcript's path
    only. *)
Lemma save_to_txt_file_touches (device_data : json) (video_filename : string)
    (size : nat) (timestamp : string) (w w2 : world) (r : result (option string))
    (q : string) :
  save_to_txt_file lib device_data video_filename size timestamp w = (r, w2) ->
  (forall device_id, py_getitem device_data "device_id" = Ok device_id ->
     q <> transcript_path lib device_id timestamp) ->
  store w2 !! q = store w !! q.
Proof.
  intros Hrun Hq.
  assert (Hinv : inv (on_store (fun st => st !! q = store w !! q))
                     (save_to_txt_file lib device_data video_filename size timestamp)).
  { unfold save_to_txt_file.
    destruct (py_getitem device_data "device_id") as [device_id|e].
    - assert (Hne : transcript_path lib device_id timestamp <> q).
      { intros E. now apply (Hq device_id). }
      apply inv_try; [|intros ?; apply inv_ret].
      intros w0 r0 w0' HI. rewrite bind_lift_ok. revert w0 r0 w0' HI.
      cbv zeta.
      inv_steps ltac:(first
        [ apply inv_lift | apply inv_ret | apply inv_store_now
        | apply frame_open; exact Hne
        | apply frame_write; exact Hne ]).
    - apply inv_try; [|intros ?; apply inv_ret].
      intros w0 r0 w0' HI. rewrite bind_lift_raise. intros [= _ <-]. exact HI. }
  exact (Hinv w r w2 eq_refl Hrun).
Qed.

Lemma save_to_txt_file_keeps_files (device_data : json) (video_filename : string)
    (size : nat) (timestamp : string) (p : string) :
  inv (on_store (fun st => is_file st p = true))
      (save_to_txt_file lib device_data video_filename size timestamp).
Proof. unfold save_to_txt_file. inv_steps ltac:(solve [auto with inv]). Qed.

(** What is true of the store before a valid submission and is kept by
    both stages is true after it. *)
Lemma received_keeps (request : Request) (fields : list (string * json))
    (video_file : FileStorage) (w : world) (P : gmap string node -> Prop) :
  valid_submission lib request fields video_file ->
  (forall r w1, persist_video lib (JObj fields) video_file w = (r, w1) ->
                P (store w) -> P (store w1)) ->
  (forall size timestamp w1 r w2,
     save_to_txt_file lib (JObj fields) (filename video_file) size timestamp w1
       = (r, w2) ->
     timestamp = strftime_stamp (clock w (tick w)) ->
     P (store w1) -> P (store w2)) ->
  P (store w) -> P (store (snd (verify_endpoint lib request w))).
Proof.
  intros Hvalid Hvideo Htxt HP.
  destruct (received_cases lib request fields video_file w Hvalid)
    as [(e & w1 & Hv & ->) | (size & ts & name & w1 & r & w2 & id & Hv & Ht & _ & ->)];
    cbn [snd store].
  - exact (Hvideo _ _ Hv HP).
  - apply (Htxt _ _ _ _ _ Ht); [|exact (Hvideo _ _ Hv HP)].
    apply persist_video_spec in Hv as (id' & _ & _ & Hsaved & _).
    now injection Hsaved as _ -> _.
Qed.

Lemma str_length_app (a b : string) :
  String.length (a +:+ b) = String.length a + String.length b.
Proof.
  induction a as [|c a IH]; [reflexivity|].
  change (String c a +:+ b) with (String c (a +:+ b)). cbn [String.length].
  now rewrite IH.
Qed.

(** Two texts that end in tails of one length and are equal have equal
    heads and equal tails. *)
Lemma str_app_same_tail_length (a b s1 s2 : string) :
  a +:+ s1 = b +:+ s2 -> String.length s1 = String.length s2 ->
  a = b /\ s1 = s2.
Proof.
  revert b. induction a as [|c a IH]; intros [|d b] E Hlen.
  - auto.
  - exfalso. change ("" +:+ s1) with s1 in E. rewrite E, str_length_app in Hlen.
    cbn [String.length] in Hlen. lia.
  - exfalso. change ("" +:+ s2) with s2 in E. rewrite <- E, str_length_app in Hlen.
    cbn [String.length] in Hlen. lia.
  - change (String c (a +:+ s1) = String d (b +:+ s2)) in E. injection E as -> E.
    destruct (IH b E Hlen) as [-> ->]. auto.
Qed.

Lemma digit_length (n : N) : String.length (digit n) = 1.
Proof. reflexivity. Qed.

Lemma stamp_length (t : datetime) : String.length (strftime_stamp t) = 15.
Proof.
  unfold strftime_stamp, pad4, pad2.
  rewrite !str_length_app, !digit_length. reflexivity.
Qed.

Lemma keyed_name_inj (prefix ext a b : string) (t1 t2 : datetime) :
  prefix +:+ a +:+ "_" +:+ strftime_stamp t1 +:+ ext
  = prefix +:+ b +:+ "_" +:+ strftime_stamp t2 +:+ ext ->
  a = b /\ strftime_stamp t1 = strftime_stamp t2.
Proof.
  intros E. apply str_app_inj_l in E.
  apply str_app_same_tail_length in E as [-> E].
  - split; [reflexivity|]. apply str_app_inj_l in E.
    now apply str_app_same_tail_length in E as [E _].
  - now rewrite !str_length_app, !stamp_length.
Qed.

Lemma video_name_inj (id1 id2 : json) (t1 t2 : datetime) :
  video_name lib id1 (strftime_stamp t1) = video_name lib id2 (strftime_stamp t2) ->
  py_str lib id1 = py_str lib id2 /\ strftime_stamp t1 = strftime_stamp t2.
Proof. apply keyed_name_inj. Qed.

Lemma transcript_name_inj (id1 id2 : json) (t1 t2 : datetime) :
  transcript_name lib id1 (strftime_stamp t1)
  = transcript_name lib id2 (strftime_stamp t2) ->
  py_str lib id1 = py_str lib id2 /\ strftime_stamp t1 = strftime_stamp t2.
Proof. apply keyed_name_inj. Qed.

Lemma video_path_inj (id1 id2 : json) (t1 t2 : datetime) :
  video_path lib id1 (strftime_stamp t1) = video_path lib id2 (strftime_stamp t2) ->
  py_str lib id1 = py_str lib id2 /\ strftime_stamp t1 = strftime_stamp t2.
Proof.
  unfold video_path. rewrite !join_upload_dir by reflexivity.
  intros E. apply video_name_inj. exact (str_app_inj_l "uploads/" _ _ E).
Qed.

Lemma transcript_path_inj (id1 id2 : json) (t1 t2 : datetime) :
  transcript_path lib id1 (strftime_stamp t1)
  = transcript_path lib id2 (strftime_stamp t2) ->
  py_str lib id1 = py_str lib id2 /\ strftime_stamp t1 = strftime_stamp t2.
Proof.
  unfold transcript_path. rewrite !join_upload_dir by reflexivity.
  intros E. apply transcript_name_inj. exact (str_app_inj_l "uploads/" _ _ E).
Qed.

Lemma video_path_prefix (device_id : json) (timestamp : string) :
  starts_with "uploads/mobile_liveness_" (video_path lib device_id timestamp) = true.
Proof. reflexivity. Qed.

Lemma transcript_path_prefix (device_id : json) (timestamp : string) :
  starts_with "uploads/device_data_" (transcript_path lib device_id timestamp) = true.
Proof. reflexivity. Qed.

Lemma video_path_is_no_transcript_path (id1 id2 : json) (ts1 ts2 : string) :
  video_path lib id1 ts1 <> transcript_path lib id2 ts2.
Proof.
  intros E. pose proof (transcript_path_prefix id2 ts2) as H.
  rewrite <- E in H. discriminate H.
Qed.

End Touches.

Section Isolation.

Context (lib : PyLib).

Lemma persist_video_fails (request : Request) (fields : list (string * json))
    (video_file : FileStorage) (device_id : json) (w : world) :
  valid_submission lib request fields video_file ->
  dict_lookup "device_id" fields = Some device_id ->
  can_create w (video_path lib device_id (strftime_stamp (clock w (tick w)))) = false ->
  exists e w1,
    persist_video lib (JObj fields) video_file w = (Raise e, w1) /\
    verify_endpoint lib request w = (internal_error lib e, w1).
Proof.
  intros Hvalid Hid Hc.
  destruct (received_cases lib request fields video_file w Hvalid)
    as [(e & w1 & Hv & Hr) | (size & ts & name & w1 & r & w2 & id & Hv & _)].
  - eauto.
  - exfalso. apply persist_video_spec in Hv as (id' & Hget & Hc' & _).
    rewrite (getitem_present _ _ _ Hid) in Hget. injection Hget as <-.
    unfold video_path in Hc. congruence.
Qed.

(** X5: when the video of a valid submission to a flat upload directory
    cannot be created (the disk refuses, or its directory is missing), the
    answer is the 500 [Internal server error], the transcript writer is
    not run, and no path of the store other than the video's own is
    changed. *)
Theorem failed_video_save_is_internal_error (request : Request)
    (fields : list (string * json)) (video_file : FileStorage) (device_id : json)
    (w : world) :
  valid_submission lib request fields video_file ->
  dict_lookup "device_id" fields = Some device_id ->
  flat (store w) ->
  can_create w (video_path lib device_id (strftime_stamp (clock w (tick w)))) = false ->
  exists e w',
    verify_endpoint lib request w = (internal_error lib e, w') /\
    forall q, q <> video_path lib device_id (strftime_stamp (clock w (tick w))) ->
              store w' !! q = store w !! q.
Proof.
  intros Hvalid Hid _ Hc.
  destruct (persist_video_fails request fields video_file device_id w Hvalid Hid Hc)
    as (e & w1 & Hv & Hr).
  exists e, w1. split; [exact Hr|]. intros q Hq.
  apply (persist_video_touches lib _ _ _ _ _ _ Hv).
  intros id Hget. rewrite (getitem_present _ _ _ Hid) in Hget. now injection Hget as <-.
Qed.

Lemma file_save_without_directory (s : Stream) (dst : string) (w w' : world)
    (r : result unit) :
  is_dir (store w) (parent_dir dst) = false ->
  file_save lib s dst w = (r, w') ->
  store w' = store w.
Proof.
  intros Hdir. destruct w as [st ck tk pl]. cbn [store] in Hdir.
  unfold file_save, fs_open_w, bind, io_step. cbn [plan].
  destruct pl as [|[m|] rest]; cbn [store]; rewrite ?Hdir; cbn [negb];
    intros [= _ <-]; reflexivity.
Qed.

Lemma slash_has_no_directory (st : gmap string node) (name : string) :
  flat st -> starts_with "/" name = false -> has_slash name = true ->
  is_dir st (parent_dir (os_path_join UPLOAD_DIR name)) = false.
Proof.
  intros Hflat Hs Hslash.
  destruct (is_dir st (parent_dir (os_path_join UPLOAD_DIR name))) eqn:Hdir;
    [|reflexivity].
  exfalso. assert (has_slash name = false); [|congruence].
  apply parent_is_upload_dir; [exact Hs|].
  unfold is_dir in Hdir. apply orb_true_iff in Hdir as [Hdir|Hdir].
  - left. now apply String.eqb_eq.
  - right. apply Hflat. destruct (st !! _) as [[c t|]|]; try discriminate. reflexivity.
Qed.

(** X6: in a flat upload directory, a valid submission whose [device_id]
    prints with a path separator is answered with the 500 [Internal
    server error] and the store is left as it was: the name built from the
    [device_id] points into a directory that is not there. *)
Theorem separator_in_device_id_is_internal_error (request : Request)
    (fields : list (string * json)) (video_file : FileStorage) (device_id : json)
    (w : world) :
  valid_submission lib request fields video_file ->
  dict_lookup "device_id" fields = Some device_id ->
  flat (store w) ->
  has_slash (py_str lib device_id) = true ->
  exists e w',
    verify_endpoint lib request w = (internal_error lib e, w') /\
    store w' = store w.
Proof.
  intros Hvalid Hid Hflat Hslash.
  set (stamp := strftime_stamp (clock w (tick w))).
  assert (Hdir : is_dir (store w) (parent_dir (video_path lib device_id stamp)) = false).
  { apply slash_has_no_directory; [exact Hflat|reflexivity|].
    unfold video_name. rewrite !has_slash_app, Hslash. now rewrite orb_true_r. }
  assert (Hc : can_create w (video_path lib device_id stamp) = false).
  { unfold can_create. rewrite Hdir. now rewrite andb_false_r. }
  destruct (persist_video_fails request fields video_file device_id w Hvalid Hid Hc)
    as (e & w1 & Hv & Hr).
  exists e, w1. split; [exact Hr|].
  revert Hv. unfold persist_video. cbn [stream_read]. unfold bind at 1, datetime_now.
  rewrite (getitem_present _ _ _ Hid), bind_lift_ok. unfold bind.
  match goal with
  | |- context [file_save lib ?s ?dst ?w0] =>
      destruct (file_save lib s dst w0) as [[[]|e'] w2] eqn:Hsave;
      pose proof (file_save_without_directory s dst w0 w2 _ Hdir Hsave) as Hst
  end; intros [= _ <-]; exact Hst.
Qed.

(** X7: a POST to a flat upload directory, whatever it carries and
    however it ends, changes no path of the store outside the two families
    [uploads/mobile_liveness_] and [uploads/device_data_], and removes no
    file: what was a regular file before is one after. *)
Theorem submission_stays_in_its_families (request : Request) (w : world) :
  method request = "POST" ->
  flat (store w) ->
  (forall q, starts_with "uploads/mobile_liveness_" q = false ->
             starts_with "uploads/device_data_" q = false ->
             store (snd (verify_endpoint lib request w)) !! q = store w !! q) /\
  (forall p, is_file (store w) p = true ->
             is_file (store (snd (verify_endpoint lib request w))) p = true).
Proof.
  intros Hm _. pose proof (verify_post_outcome lib request w Hm) as Ho.
  remember (verify_endpoint lib request w) as out eqn:Hout.
  destruct Ho as [msg|e|fields video_file Hvalid].
  - split; auto.
  - split; auto.
  - rewrite Hout. split.
    + intros q Hv Ht.
      apply (received_keeps lib request fields video_file w
               (fun st => st !! q = store w !! q) Hvalid); [| |reflexivity].
      * intros r w1 Hrun _. apply (persist_video_touches lib _ _ _ _ _ _ Hrun).
        intros id _ ->. rewrite video_path_prefix in Hv. discriminate.
      * intros size ts w1 r w2 Hrun _ <-.
        apply (save_to_txt_file_touches lib _ _ _ _ _ _ _ _ Hrun).
        intros id _ ->. rewrite transcript_path_prefix in Ht. discriminate.
    + intros p Hp.
      apply (received_keeps lib request fields video_file w
               (fun st => is_file st p = true) Hvalid); [| |exact Hp].
      * intros r w1 Hrun. exact (persist_video_keeps_files lib _ _ _ _ _ _ Hrun).
      * intros size ts w1 r w2 Hrun _ HP.
        exact (save_to_txt_file_keeps_files lib _ _ _ _ p w1 r w2 HP Hrun).
Qed.


(** X9: a valid submission to a flat upload directory, however it ends,
    leaves alone the two files of any other key: when [device_id0] prints differently from its
    [device_id], or the time [t0] stamps differently from its clock
    reading, what the store holds at the video path and at the transcript
    path of ([device_id0], [t0]) is what it held before. *)
Theorem other_keys_are_left_alone (request : Request)
    (fields : list (string * json)) (video_file : FileStorage)
    (device_id device_id0 : json) (t0 : datetime) (w : world) :
  valid_submission lib request fields video_file ->
  dict_lookup "device_id" fields = Some device_id ->
  flat (store w) ->
  py_str lib device_id0 <> py_str lib device_id \/
  strftime_stamp t0 <> strftime_stamp (clock w (tick w)) ->
  store (snd (verify_endpoint lib request w))
    !! video_path lib device_id0 (strftime_stamp t0)
  = store w !! video_path lib device_id0 (strftime_stamp t0) /\
  store (snd (verify_endpoint lib request w))
    !! transcript_path lib device_id0 (strftime_stamp t0)
  = store w !! transcript_path lib device_id0 (strftime_stamp t0).
Proof.
  intros Hvalid Hid _ Hkey.
  assert (Hown : forall id, py_getitem (JObj fields) "device_id" = Ok id -> id = device_id).
  { intros id Hget. rewrite (getitem_present _ _ _ Hid) in Hget. now injection Hget. }
  split.
  - apply (received_keeps lib request fields video_file w
             (fun st => st !! video_path lib device_id0 (strftime_stamp t0)
                        = store w !! video_path lib device_id0 (strftime_stamp t0))
             Hvalid); [| |reflexivity].
    + intros r w1 Hrun _. apply (persist_video_touches lib _ _ _ _ _ _ Hrun).
      intros id Hget E. rewrite (Hown id Hget) in E.
      apply video_path_inj in E as [E1 E2]. destruct Hkey; contradiction.
    + intros size ts w1 r w2 Hrun _ <-.
      apply (save_to_txt_file_touches lib _ _ _ _ _ _ _ _ Hrun).
      intros id _. apply video_path_is_no_transcript_path.
  - apply (received_keeps lib request fields video_file w
             (fun st => st !! transcript_path lib device_id0 (strftime_stamp t0)
                        = store w !! transcript_path lib device_id0 (strftime_stamp t0))
             Hvalid); [| |reflexivity].
    + intros r w1 Hrun _. apply (persist_video_touches lib _ _ _ _ _ _ Hrun).
      intros id _ E. symmetry in E. revert E. apply video_path_is_no_transcript_path.
    + intros size ts w1 r w2 Hrun -> <-.
      apply (save_to_txt_file_touches lib _ _ _ _ _ _ _ _ Hrun).
      intros id Hget E. rewrite (Hown id Hget) in E.
      apply transcript_path_inj in E as [E1 E2]. destruct Hkey; contradiction.
Qed.

Lemma verify_accepts (request : Request) (fields : list (string * json))
    (video_file : FileStorage) (device_id : json) (w : world) :
  valid_submission lib request fields video_file ->
  dict_lookup "device_id" fields = Some device_id ->
  can_create w (video_path lib device_id (strftime_stamp (clock w (tick w)))) = true ->
  exists mtime,
    status_of (fst (verify_endpoint lib request w)) = 200 /\
    json_field "video_saved_as" (fst (verify_endpoint lib request w))
      = Some (JStr (video_name lib device_id (strftime_stamp (clock w (tick w))))) /\
    store (snd (verify_endpoint lib request w))
      !! video_path lib device_id (strftime_stamp (clock w (tick w)))
      = Some (File (data (stream video_file)) mtime).
Proof.
  intros Hvalid Hid Hc.
  destruct (received_cases lib request fields video_file w Hvalid)
    as [(e & w1 & Hv & Hr) | (size & ts & name & w1 & r & w2 & id & Hv & Ht & Hid' & ->)].
  - exfalso.
    assert (Hok : exists saved w1', persist_video lib (JObj fields) video_file w
                                    = (Ok saved, w1')).
    { eexists _, _. apply persist_video_spec. exists device_id.
      split; [now apply getitem_present|]. cbv zeta.
      split; [exact Hc|]. split; reflexivity. }
    destruct Hok as (saved & w1' & Hok). congruence.
  - apply persist_video_spec in Hv as (id' & Hget & _ & Hsaved & Hw1).
    rewrite (getitem_present _ _ _ Hid) in Hget. injection Hget as <-.
    injection Hsaved as -> -> ->.
    exists (clock w (S (tick w))). cbn [fst snd store].
    split; [reflexivity|]. split; [reflexivity|].
    eapply video_survives_transcript; [|exact Ht].
    subst w1. cbn [store]. apply lookup_insert_eq.
Qed.

(** X10: the last write wins. When two valid submissions whose device
    ids print alike are handled one after the other within one stamped
    second, and the video can be created both times, both responses carry
    the same [video_saved_as], and the file under that name holds the
    bytes of the first upload after the first and the bytes of the second
    after the second. *)
Theorem same_key_overwrites (request1 request2 : Request)
    (fields1 fields2 : list (string * json)) (video1 video2 : FileStorage)
    (id1 id2 : json) (w : world) :
  valid_submission lib request1 fields1 video1 ->
  valid_submission lib request2 fields2 video2 ->
  dict_lookup "device_id" fields1 = Some id1 ->
  dict_lookup "device_id" fields2 = Some id2 ->
  py_str lib id1 = py_str lib id2 ->
  strftime_stamp (clock (snd (verify_endpoint lib request1 w))
                        (tick (snd (verify_endpoint lib request1 w))))
  = strftime_stamp (clock w (tick w)) ->
  can_create w (video_path lib id1 (strftime_stamp (clock w (tick w)))) = true ->
  can_create (snd (verify_endpoint lib request1 w))
    (video_path lib id1 (strftime_stamp (clock w (tick w)))) = true ->
  exists mtime1 mtime2,
    json_field "video_saved_as" (fst (verify_endpoint lib request1 w))
    = json_field "video_saved_as"
        (fst (verify_endpoint lib request2 (snd (verify_endpoint lib request1 w)))) /\
    store (snd (verify_endpoint lib request1 w))
      !! video_path lib id1 (strftime_stamp (clock w (tick w)))
    = Some (File (data (stream video1)) mtime1) /\
    store (snd (verify_endpoint lib request2 (snd (verify_endpoint lib request1 w))))
      !! video_path lib id1 (strftime_stamp (clock w (tick w)))
    = Some (File (data (stream video2)) mtime2).
Proof.
  intros Hv1 Hv2 Hid1 Hid2 Hstr Hstamp Hc1 Hc2.
  set (w1 := snd (verify_endpoint lib request1 w)) in *.
  set (stamp := strftime_stamp (clock w (tick w))) in *.
  assert (Hpath : video_path lib id2 (strftime_stamp (clock w1 (tick w1)))
                  = video_path lib id1 stamp).
  { unfold video_path, video_name. now rewrite Hstamp, Hstr. }
  assert (Hname : video_name lib id2 (strftime_stamp (clock w1 (tick w1)))
                  = video_name lib id1 stamp).
  { unfold video_name. now rewrite Hstamp, Hstr. }
  destruct (verify_accepts request1 fields1 video1 id1 w Hv1 Hid1 Hc1)
    as (m1 & _ & Hn1 & Hs1).
  rewrite <- Hpath in Hc2.
  destruct (verify_accepts request2 fields2 video2 id2 w1 Hv2 Hid2 Hc2)
    as (m2 & _ & Hn2 & Hs2).
  rewrite Hpath in Hs2. rewrite Hname in Hn2.
  exists m1, m2. split; [now rewrite Hn1, Hn2|]. split; [exact Hs1|exact Hs2].
Qed.

End Isolation.

(** ** When the transcript is written *)

Section MonadProgress.

Context {A B : Type}.




End MonadProgress.



Section TranscriptProgress.

Context (lib : PyLib).


Lemma getitem_lookup (fields : list (string * json)) (k : string) (v : json) :
  py_getitem (JObj fields) k = Ok v -> dict_lookup k fields = Some v.
Proof.
  unfold py_getitem. destruct (dict_lookup k fields); [now intros [= ->]|discriminate].
Qed.




Lemma video_path_not_upload_dir (device_id : json) (timestamp : string) :
  video_path lib device_id timestamp <> UPLOAD_DIR.
Proof.
  intros E. pose proof (video_path_prefix lib device_id timestamp) as H.
  rewrite E in H. discriminate H.
Qed.

Lemma transcript_path_not_upload_dir (device_id : json) (timestamp : string) :
  transcript_path lib device_id timestamp <> UPLOAD_DIR.
Proof.
  intros E. pose proof (transcript_path_prefix lib device_id timestamp) as H.
  rewrite E in H. discriminate H.
Qed.


(** X12: what a transcript needs. [save_to_txt_file] returns a path only
    if [device_data] is an object that has [device_id], [is_compromised],
    [ip_address] and a [gps_location] that can be indexed by [latitude]
    and by [longitude]; the path is then the transcript path of its
    [device_id] and the given timestamp. In every other case it returns
    [None]. *)
Theorem transcript_needs_every_field (device_data : json) (video_filename : string)
    (size : nat) (timestamp : string) (w w' : world) (p : string) :
  save_to_txt_file lib device_data video_filename size timestamp w
    = (Ok (Some p), w') ->
  exists fields device_id compromised ip gps latitude longitude,
    device_data = JObj fields /\
    dict_lookup "device_id" fields = Some device_id /\
    dict_lookup "is_compromised" fields = Some compromised /\
    dict_lookup "ip_address" fields = Some ip /\
    dict_lookup "gps_location" fields = Some gps /\
    py_getitem gps "latitude" = Ok latitude /\
    py_getitem gps "longitude" = Ok longitude /\
    p = transcript_path lib device_id timestamp.
Proof.
  intros Hrun.
  assert (Hdead : forall k e, py_getitem device_data k = Raise e ->
            k = "device_id" \/ k = "is_compromised" \/ k = "ip_address" \/
            k = "gps_location" -> False).
  { intros k e Hk Hin. revert Hrun. unfold save_to_txt_file, try_except.
    match goal with
    | |- context [match ?m w with _ => _ end] => assert (Hr : raises m)
    end.
    { destruct Hin as [->|[->|[->| ->]]]; rewrite Hk;
        repeat first
          [ apply raises_bind_l; apply raises_lift
          | apply raises_bind_r; intros ? ]. }
    destruct (Hr w) as (e0 & w0 & ->). discriminate. }
  destruct (py_getitem device_data "device_id") as [device_id|e] eqn:Hid;
    [|exfalso; eapply Hdead; eauto].
  destruct (py_getitem device_data "is_compromised") as [compromised|e] eqn:Hc;
    [|exfalso; eapply (Hdead "is_compromised"); eauto].
  destruct (py_getitem device_data "ip_address") as [ip|e] eqn:Hip;
    [|exfalso; eapply (Hdead "ip_address"); eauto 6].
  destruct (py_getitem device_data "gps_location") as [gps|e] eqn:Hgps;
    [|exfalso; eapply (Hdead "gps_location"); eauto 6].
  assert (Hcoord : forall k e, py_getitem gps k = Raise e ->
            k = "latitude" \/ k = "longitude" -> False).
  { intros k e Hk Hin. revert Hrun. unfold save_to_txt_file, try_except.
    match goal with
    | |- context [match ?m w with _ => _ end] => assert (Hr : raises m)
    end.
    { rewrite Hgps. destruct Hin as [->| ->];
        repeat first
          [ apply raises_bind_l; apply raises_lift
          | apply raises_bind_ok; cbv beta; try rewrite Hk
          | apply raises_bind_r; intros ? ]. }
    destruct (Hr w) as (e0 & w0 & ->). discriminate. }
  destruct (py_getitem gps "latitude") as [latitude|e] eqn:Hlat;
    [|exfalso; eapply (Hcoord "latitude"); eauto].
  destruct (py_getitem gps "longitude") as [longitude|e] eqn:Hlon;
    [|exfalso; eapply (Hcoord "longitude"); eauto].
  destruct (getitem_object _ _ _ Hid) as [fields ->].
  destruct (save_to_txt_file_Some lib _ _ _ _ _ _ _ Hrun) as (id & Hget & Hp & _).
  rewrite Hid in Hget. injection Hget as <-.
  exists fields, device_id, compromised, ip, gps, latitude, longitude.
  repeat (split; [first [reflexivity | now apply getitem_lookup | assumption]|]).
  exact Hp.
Qed.

End TranscriptProgress.

(** ** The endpoints that only read, and the start of the program *)

Section Reading.

Context (lib : PyLib).

Lemma io_step_store (w w' : world) (r : result unit) :
  io_step w = (r, w') -> store w' = store w.
Proof.
  destruct w as [st ck tk pl]. unfold io_step. cbn [plan].
  destruct pl as [|[m|] rest]; intros [= _ <-]; reflexivity.
Qed.

Lemma io_step_ok (w : world) :
  no_fault 1 (plan w) = true ->
  exists w', io_step w = (Ok tt, w') /\ store w' = store w.
Proof.
  destruct w as [st ck tk pl]. unfold io_step. cbn [plan store].
  destruct pl as [|[m|] rest]; intros H; try discriminate H; eauto.
Qed.

Lemma io_step_fault (w : world) :
  no_fault 1 (plan w) = false ->
  exists msg w', io_step w = (Raise (OSError msg), w').
Proof.
  destruct w as [st ck tk pl]. unfold io_step. cbn [plan store].
  destruct pl as [|[m|] rest]; intros H; try discriminate H; eauto.
Qed.

(** X13: the endpoints that read change nothing. [health_check], [home],
    [list_files] and [download_file] leave the store as it was, whatever
    the name asked for and whether or not they fail; [health_check] and
    [home] always answer 200. *)
Theorem reading_endpoints_change_nothing (filename : string) (w : world) :
  store (snd (health_check w)) = store w /\
  store (snd (home w)) = store w /\
  store (snd (list_files lib w)) = store w /\
  store (snd (download_file lib filename w)) = store w /\
  status_of (fst (health_check w)) = 200 /\
  status_of (fst (home w)) = 200.
Proof.
  split; [reflexivity|]. split; [reflexivity|]. split; [|split; [|split; reflexivity]].
  - unfold list_files, handle, os_listdir, bind.
    destruct (io_step w) as [[[]|e] w1] eqn:E; apply io_step_store in E;
      [|exact E].
    destruct (store w1 !! UPLOAD_DIR) as [[c t|]|]; exact E.
  - unfold download_file, handle, send_from_directory, bind.
    destruct (safe_join UPLOAD_DIR filename) as [p|]; [|reflexivity].
    destruct (store w !! p) as [[c t|]|]; try reflexivity.
    destruct (io_step w) as [[[]|e] w1] eqn:E; apply io_step_store in E; exact E.
Qed.

(** X14: [list_files] answers 200 exactly when the upload directory is
    a directory and reading it does not fail; in every other case (it is
    missing, a regular file is in its place, the read fails) it answers
    500 with the text of the error under [error]. *)
Theorem listing_answers_200_or_500 (w : world) :
  (status_of (fst (list_files lib w)) = 200 <->
   store w !! UPLOAD_DIR = Some Directory /\ no_fault 1 (plan w) = true) /\
  (status_of (fst (list_files lib w)) = 200 \/
   exists msg, fst (list_files lib w) = JsonResponse 500 (error_body msg)).
Proof.
  unfold list_files, handle, os_listdir, bind.
  destruct (no_fault 1 (plan w)) eqn:Hplan.
  - destruct (io_step_ok w Hplan) as (w1 & -> & Hst). rewrite Hst.
    destruct (store w !! UPLOAD_DIR) as [[c t|]|]; cbn [fst status_of].
    + split; [split; [discriminate|intros [[=] _]]|right; eauto].
    + split; [split; auto|left; reflexivity].
    + split; [split; [discriminate|intros [[=] _]]|right; eauto].
  - destruct (io_step_fault w Hplan) as (msg & w1 & ->). cbn [fst status_of].
    split; [split; [discriminate|intros [_ [=]]]|right; eauto].
Qed.


Lemma listing_has (w : world) (name : string) (content : list byte) (mtime : datetime) :
  store w !! UPLOAD_DIR = Some Directory ->
  no_fault 1 (plan w) = true ->
  name <> "" -> has_slash name = false ->
  store w !! os_path_join UPLOAD_DIR name = Some (File content mtime) ->
  exists files,
    fst (list_files lib w)
    = JsonResponse 200 (JObj [("files", JArr files);
                              ("count", JInt (Z.of_nat (length files)))]) /\
    listing_entry name content mtime ∈ files.
Proof.
  intros Hdir Hplan Hne Hs Hin.
  destruct (os_listdir_ok lib UPLOAD_DIR w Hdir Hplan) as (w1 & Hls & Hst).
  exists (omap (entry_of_item (store w)) (map_to_list (store w))). split.
  - unfold list_files, handle. rewrite (bind_ok _ _ _ _ _ Hls).
    rewrite Hst, collect_files_omap, omap_omap. reflexivity.
  - apply list_elem_of_omap.
    exists (os_path_join UPLOAD_DIR name, File content mtime). split.
    + now apply elem_of_map_to_list.
    + apply entry_of_item_Some; [exact Hin|]. exists name, content, mtime. auto.
Qed.

Lemma video_name_not_empty (device_id : json) (timestamp : string) :
  video_name lib device_id timestamp <> "".
Proof. discriminate. Qed.

(** X16: what is acknowledged is what is listed. After a valid
    submission to a flat upload directory whose video could be created,
    [list_files], when reading the directory does not fail, answers 200
    with a list that has the entry of the video: its [name] is the
    [video_saved_as] of the acknowledgment and its [size] the byte length
    of the upload. *)
Theorem acknowledged_video_is_listed (request : Request)
    (fields : list (string * json)) (video_file : FileStorage) (device_id : json)
    (w : world) :
  valid_submission lib request fields video_file ->
  dict_lookup "device_id" fields = Some device_id ->
  store w !! UPLOAD_DIR = Some Directory ->
  flat (store w) ->
  can_create w (video_path lib device_id (strftime_stamp (clock w (tick w)))) = true ->
  no_fault 1 (plan (snd (verify_endpoint lib request w))) = true ->
  exists files mtime,
    json_field "video_saved_as" (fst (verify_endpoint lib request w))
      = Some (JStr (video_name lib device_id (strftime_stamp (clock w (tick w))))) /\
    fst (list_files lib (snd (verify_endpoint lib request w)))
      = JsonResponse 200 (JObj [("files", JArr files);
                                ("count", JInt (Z.of_nat (length files)))]) /\
    listing_entry (video_name lib device_id (strftime_stamp (clock w (tick w))))
      (data (stream video_file)) mtime ∈ files.
Proof.
  intros Hvalid Hid Hdir Hflat Hc Hplan.
  destruct (verify_accepts lib request fields video_file device_id w Hvalid Hid Hc)
    as (mtime & _ & Hname & Hstore).
  assert (Hslash := flat_device_id_no_slash lib _ _ _ Hflat Hc).
  assert (Hdir' : store (snd (verify_endpoint lib request w)) !! UPLOAD_DIR
                  = Some Directory).
  { apply (received_keeps lib request fields video_file w
             (fun st => st !! UPLOAD_DIR = Some Directory) Hvalid); [| |exact Hdir].
    - intros r w1 Hrun HP. rewrite <- HP.
      apply (persist_video_touches lib _ _ _ _ _ _ Hrun).
      intros id _ E. symmetry in E. revert E. apply video_path_not_upload_dir.
    - intros size ts w1 r w2 Hrun _ HP. rewrite <- HP.
      apply (save_to_txt_file_touches lib _ _ _ _ _ _ _ _ Hrun).
      intros id _ E. symmetry in E. revert E. apply transcript_path_not_upload_dir. }
  destruct (listing_has (snd (verify_endpoint lib request w))
              (video_name lib device_id (strftime_stamp (clock w (tick w))))
              (data (stream video_file)) mtime Hdir' Hplan)
    as (files & Hlist & Hin).
  - apply video_name_not_empty.
  - now apply video_name_no_slash.
  - exact Hstore.
  - exists files, mtime. auto.
Qed.

(** X17: the start of the program. When nothing is at [uploads] and
    making the directory does not fail, the start creates it and changes
    no other path; when something is there already, a directory or a
    regular file, the start changes nothing. Either way something is at
    [uploads] afterwards, and starting again changes nothing more. *)
Theorem start_creates_upload_dir_once (w : world) :
  no_fault 1 (plan w) = true ->
  exists w',
    create_upload_dir lib w = (Ok tt, w') /\
    os_path_exists (store w') UPLOAD_DIR = true /\
    (forall q, q <> UPLOAD_DIR -> store w' !! q = store w !! q) /\
    (store w !! UPLOAD_DIR = None -> store w' !! UPLOAD_DIR = Some Directory) /\
    (os_path_exists (store w) UPLOAD_DIR = true -> w' = w) /\
    create_upload_dir lib w' = (Ok tt, w').
Proof.
  intros Hplan. unfold create_upload_dir, os_path_exists.
  destruct (store w !! UPLOAD_DIR) as [nd|] eqn:Hdir; cbn [negb].
  - exists w. rewrite Hdir. cbn [negb]. repeat split; try reflexivity; discriminate.
  - unfold os_makedirs, bind.
    destruct (io_step_ok w Hplan) as (w1 & -> & Hst). rewrite Hst, Hdir.
    eexists. split; [reflexivity|]. unfold set_store. cbn [store].
    rewrite lookup_insert_eq. cbn [negb].
    repeat split; try reflexivity; try discriminate.
    intros q Hq. now rewrite lookup_insert_ne.
Qed.

End Reading.

(** * Runs on the sample worlds *)

Example split_slash_examples :
  split_slash "uploads/a.mp4" = ["uploads"; "a.mp4"] /\
  split_slash "a//b/" = ["a"; ""; "b"; ""] /\ split_slash "" = [""] /\
  os_path_basename "uploads/a.mp4" = "a.mp4" /\ parent_dir "uploads/a.mp4" = "uploads" /\
  os_path_basename "uploads/d/b.txt" = "b.txt" /\ parent_dir "uploads/d/b.txt" = "uploads/d".
Proof. repeat split; reflexivity. Qed.

Example normpath_examples :
  normpath "a.mp4" = "a.mp4" /\ normpath "a/../b" = "b" /\
  normpath "../x" = "../x" /\ normpath "./a//b/" = "a/b" /\
  normpath "/a/../../b" = "/b" /\ normpath "a/.." = "." /\
  normpath "//a" = "//a" /\ normpath "///a" = "/a".
Proof. repeat split; reflexivity. Qed.

Example time_examples :
  let t := {| year := 2024; month := 3; day := 7; hour := 9; minute := 5;
              second := 2; microsecond := 1500 |} in
  strftime_stamp t = "20240307_090502" /\
  strftime_display t = "2024-03-07 09:05:02" /\
  isoformat t = "2024-03-07T09:05:02.001500".
Proof. repeat split; reflexivity. Qed.

Example media_type_examples :
  media_type "multipart/form-data; boundary=xyz" = "multipart/form-data" /\
  media_type "Multipart/Form-Data ;boundary=q" = "multipart/form-data" /\
  media_type "application/json" = "application/json".
Proof. repeat split; reflexivity. Qed.

Ltac sample_keys :=
  let k := fresh "k" in
  let Hk := fresh "Hk" in
  intros k Hk; unfold required_fields in Hk;
  repeat (apply elem_of_cons in Hk as [->|Hk]);
  [ unfold has_key; cbn; repeat first [ now left | right ] .. | inversion Hk ].

Lemma sample_valid (fields : list (string * json)) :
  (forall k, k ∈ required_fields -> has_key k fields) ->
  json_loads Sample.lib (Sample.dumps (JObj fields)) = Ok (JObj fields) ->
  valid_submission Sample.lib (Sample.submission Sample.multipart (Sample.dumps (JObj fields)))
    fields Sample.clip.
Proof.
  intros Hk Hl. constructor; try reflexivity; try assumption.
  - exists (Sample.dumps (JObj fields)). split; [reflexivity|exact Hl].
  - discriminate.
Defined.

Lemma good_valid :
  valid_submission Sample.lib Sample.good Sample.good_fields Sample.clip.
Proof. apply sample_valid; [sample_keys | vm_compute; reflexivity]. Defined.

Lemma fresh_flat : flat (store Sample.fresh).
Proof.
  intros p H. cbn [store Sample.fresh] in H.
  apply lookup_singleton_Some in H as [<- _]. reflexivity.
Defined.

Lemma no_coordinates_valid :
  valid_submission Sample.lib Sample.no_coordinates Sample.no_coordinates_fields Sample.clip.
Proof. apply sample_valid; [sample_keys | vm_compute; reflexivity]. Defined.

(** The example of the specification. *)
Example good_run :
  let '(response, w') := verify_endpoint Sample.lib Sample.good Sample.fresh in
  status_of response = 200 /\
  json_field "video_size" response = Some (JInt 10) /\
  json_field "video_saved_as" response
    = Some (JStr "mobile_liveness_abc123_20240307_120000.mp4") /\
  json_field "data_saved_as" response
    = Some (JStr "device_data_abc123_20240307_120000.txt") /\
  store w' !! "uploads/mobile_liveness_abc123_20240307_120000.mp4"
    = Some (File (data (stream Sample.clip)) (Sample.noon 1)).
Proof. vm_compute. repeat split. Qed.

(** Directories, and what they hold, are not listed. *)
Example listing_skips_directories :
  fst (list_files Sample.lib Sample.with_subdirectory)
  = JsonResponse 200
      (JObj [("files", JArr [listing_entry "a.mp4" [x01; x02; x03] (Sample.noon 5)]);
             ("count", JInt 1)]).
Proof. vm_compute. reflexivity. Qed.

(** A name with a parent-directory step that stays inside the upload
    directory is served: the handler rejects nothing by itself. *)
Example download_resolves_dots :
  fst (download_file Sample.lib "archive/../a.mp4" Sample.with_subdirectory)
  = FileResponse 200 [x01; x02; x03] /\
  fst (download_file Sample.lib "../server.py" Sample.with_subdirectory)
  = JsonResponse 404 (error_body (str_exc Sample.lib NotFound)).
Proof. split; vm_compute; reflexivity. Qed.

(** * Witnesses and counterexamples *)

Lemma video_bytes_round_trip_witness :
  exists response w' mtime,
    verify_endpoint Sample.lib Sample.good Sample.fresh = (response, w') /\
    status_of response = 200 /\
    json_field "video_size" response
      = Some (JInt (Z.of_nat (length (data (stream Sample.clip))))) /\
    store w' !! os_path_join UPLOAD_DIR
                  (video_name Sample.lib (JStr "abc123")
                     (strftime_stamp (clock Sample.fresh (tick Sample.fresh))))
      = Some (File (data (stream Sample.clip)) mtime).
Proof.
  apply (video_bytes_round_trip Sample.lib Sample.good Sample.good_fields Sample.clip
           (JStr "abc123") Sample.fresh).
  - exact good_valid.
  - reflexivity.
  - reflexivity.
  - vm_compute. reflexivity.
Defined.


Lemma missing_coordinate_is_swallowed_witness :
  exists response w',
    verify_endpoint Sample.lib Sample.no_coordinates Sample.fresh = (response, w') /\
    status_of response = 200 /\
    json_field "status" response = Some (JStr "received_ok") /\
    json_field "data_saved_as" response = Some (JStr "failed").
Proof.
  apply (missing_coordinate_is_swallowed Sample.lib Sample.no_coordinates
           Sample.no_coordinates_fields [] Sample.clip Sample.fresh
           (snd (persist_video Sample.lib (JObj Sample.no_coordinates_fields) Sample.clip
                   Sample.fresh))
           10 good_stamp good_video).
  - exact no_coordinates_valid.
  - reflexivity.
  - left. unfold has_key. cbn. intros H. inversion H.
  - vm_compute. reflexivity.
Defined.

(** C4 fails as stated: the sample submission with an empty
    [gps_location] object passes validation and lacks [latitude], and the
    answer is the 200 acknowledgment with [data_saved_as] set to [failed],
    not a 500. *)
Lemma missing_coordinate_is_not_internal_error :
  valid_submission Sample.lib Sample.no_coordinates Sample.no_coordinates_fields
    Sample.clip /\
  dict_lookup "gps_location" Sample.no_coordinates_fields = Some (JObj []) /\
  ~ has_key "latitude" [] /\
  status_of (fst (verify_endpoint Sample.lib Sample.no_coordinates Sample.fresh)) = 200 /\
  json_field "data_saved_as"
    (fst (verify_endpoint Sample.lib Sample.no_coordinates Sample.fresh))
    = Some (JStr "failed") /\
  status_of (fst (verify_endpoint Sample.lib Sample.no_coordinates Sample.fresh)) <> 500.
Proof.
  split; [exact no_coordinates_valid|]. split; [reflexivity|].
  split; [unfold has_key; cbn; intros H; inversion H|].
  vm_compute. repeat split. discriminate.
Qed.

Lemma first_missing_field_is_reported_witness :
  verify_endpoint Sample.lib Sample.short Sample.fresh
  = (JsonResponse 400 (error_body ("Missing required field: " +:+ "is_compromised")),
     Sample.fresh).
Proof.
  apply (first_missing_field_is_reported Sample.lib Sample.short Sample.short_fields
           ["device_id"] ["gps_location"; "ip_address"] "is_compromised" Sample.fresh).
  - reflexivity.
  - reflexivity.
  - exists (Sample.dumps (JObj Sample.short_fields)).
    split; [reflexivity | vm_compute; reflexivity].
  - reflexivity.
  - intros k Hk. apply elem_of_cons in Hk as [->|Hk]; [|inversion Hk].
    unfold has_key. cbn. now left.
  - unfold has_key. cbn. intros H.
    repeat (apply elem_of_cons in H as [H|H]; [discriminate H|]). inversion H.
Defined.

(** C2 fails as stated: the text [5] is valid JSON and has none of the
    four keys, and the answer is a 500 carrying the [TypeError] of the
    [in] test, not a 400 naming [device_id]. *)
Lemma number_is_internal_error :
  multidict_get "data" (form Sample.number) = Some "5" /\
  json_loads Sample.lib "5" = Ok (JInt 5) /\
  verify_endpoint Sample.lib Sample.number Sample.fresh
  = (JsonResponse 500
       (JObj [("error", JStr "Internal server error");
              ("details", JStr "argument of type 'int' is not iterable")]),
     Sample.fresh) /\
  fst (verify_endpoint Sample.lib Sample.number Sample.fresh)
  <> JsonResponse 400 (error_body ("Missing required field: " +:+ "device_id")).
Proof.
  split; [reflexivity|]. split; [vm_compute; reflexivity|].
  split; [vm_compute; reflexivity|]. vm_compute. discriminate.
Qed.



Lemma stored_pair_shares_one_timestamp_witness :
  exists response w',
    verify_endpoint Sample.lib Sample.good Sample.fresh = (response, w') /\
    status_of response = 200 /\
    good_stamp = strftime_stamp (clock Sample.fresh (tick Sample.fresh)) /\
    json_field "video_saved_as" response
      = Some (JStr (video_name Sample.lib (JStr "abc123") good_stamp)) /\
    is_file (store w')
      (os_path_join UPLOAD_DIR (video_name Sample.lib (JStr "abc123") good_stamp)) = true /\
    (json_field "data_saved_as" response
       = Some (JStr (transcript_name Sample.lib (JStr "abc123") good_stamp)) /\
     is_file (store w')
       (os_path_join UPLOAD_DIR (transcript_name Sample.lib (JStr "abc123") good_stamp))
       = true).
Proof.
  apply (stored_pair_shares_one_timestamp Sample.lib Sample.good Sample.good_fields
           Sample.clip (JStr "abc123") Sample.fresh good_saved good_written
           10 good_stamp good_video (Some ("uploads/" +:+ good_transcript))).
  - exact good_valid.
  - reflexivity.
  - exact fresh_flat.
  - vm_compute. reflexivity.
  - vm_compute. reflexivity.
Defined.

(** C6 fails as stated: the sample submission with an empty
    [gps_location] object is acknowledged with 200 and its transcript file
    is on disk under the shared name, cut short where the latitude was to
    be written, but [data_saved_as] is [failed] and names no file. *)
Lemma acknowledged_without_transcript_name :
  let '(response, w') := verify_endpoint Sample.lib Sample.no_coordinates Sample.fresh in
  status_of response = 200 /\
  json_field "video_saved_as" response = Some (JStr good_video) /\
  is_file (store w') (os_path_join UPLOAD_DIR good_video) = true /\
  is_file (store w') (os_path_join UPLOAD_DIR good_transcript) = true /\
  json_field "data_saved_as" response = Some (JStr "failed") /\
  json_field "data_saved_as" response <> Some (JStr good_transcript).
Proof. vm_compute. repeat split. discriminate. Qed.

Lemma listing_counts_regular_files_witness :
  exists files w',
    list_files Sample.lib Sample.with_subdirectory
    = (JsonResponse 200 (JObj [("files", JArr files);
                               ("count", JInt (Z.of_nat (length files)))]), w') /\
    store w' = store Sample.with_subdirectory /\
    length files = size (regular_files (store Sample.with_subdirectory)) /\
    NoDup files /\
    forall e, e ∈ files <->
      exists name content mtime,
        name <> "" /\ has_slash name = false /\
        store Sample.with_subdirectory !! os_path_join UPLOAD_DIR name
          = Some (File content mtime) /\
        e = listing_entry name content mtime.
Proof.
  apply (listing_counts_regular_files Sample.lib Sample.with_subdirectory).
  - vm_compute. reflexivity.
  - reflexivity.
Defined.

Lemma returned_names_download_stored_bytes_witness :
  exists bytes mtime,
    store (snd (verify_endpoint Sample.lib Sample.good Sample.fresh))
      !! os_path_join UPLOAD_DIR good_video = Some (File bytes mtime) /\
    fst (download_file Sample.lib good_video
           (snd (verify_endpoint Sample.lib Sample.good Sample.fresh)))
      = FileResponse 200 bytes /\
    (json_field "video_saved_as" (fst (verify_endpoint Sample.lib Sample.good Sample.fresh))
       = Some (JStr good_video) ->
     bytes = data (stream Sample.clip)).
Proof.
  apply (returned_names_download_stored_bytes Sample.lib Sample.good Sample.good_fields
           Sample.clip (JStr "abc123") Sample.fresh good_saved good_written
           (snd (verify_endpoint Sample.lib Sample.good Sample.fresh))
           10 good_stamp good_video good_video
           (Some ("uploads/" +:+ good_transcript))
           (fst (verify_endpoint Sample.lib Sample.good Sample.fresh))).
  - exact good_valid.
  - reflexivity.
  - exact fresh_flat.
  - vm_compute. reflexivity.
  - vm_compute. reflexivity.
  - apply surjective_pairing.
  - vm_compute. reflexivity.
  - left. vm_compute. reflexivity.
  - discriminate.
Defined.

Lemma missing_file_is_not_found_witness :
  download_file Sample.lib "nothing.mp4" Sample.with_subdirectory
  = (JsonResponse 404 (error_body (str_exc Sample.lib NotFound)),
     Sample.with_subdirectory) /\
  send_from_directory UPLOAD_DIR "nothing.mp4" Sample.with_subdirectory
  = (Raise NotFound, Sample.with_subdirectory) /\
  download_file Sample.lib "nothing.mp4" Sample.with_subdirectory
  = handle (let* content := send_from_directory UPLOAD_DIR "nothing.mp4" in
            ret (FileResponse 200 content))
           (fun e => JsonResponse 404 (error_body (str_exc Sample.lib e)))
           Sample.with_subdirectory.
Proof.
  apply (missing_file_is_not_found Sample.lib "nothing.mp4" Sample.with_subdirectory).
  vm_compute. reflexivity.
Defined.

Lemma presence_is_key_membership_witness :
  check_required_fields required_fields (JObj Sample.odd_fields) = Ok None /\
  verify_endpoint Sample.lib Sample.odd_values Sample.fresh
  = handle (receive_video Sample.lib Sample.odd_values (JObj Sample.odd_fields))
           (internal_error Sample.lib) Sample.fresh /\
  forall field,
    fst (verify_endpoint Sample.lib Sample.odd_values Sample.fresh)
    <> JsonResponse 400 (error_body ("Missing required field: " +:+ field)).
Proof.
  apply (presence_is_key_membership Sample.lib Sample.odd_values Sample.odd_fields
           Sample.fresh).
  - reflexivity.
  - reflexivity.
  - exists (Sample.dumps (JObj Sample.odd_fields)).
    split; [reflexivity | vm_compute; reflexivity].
  - sample_keys.
Defined.

(** Null, an empty string, a number and a list as the four values: the
    validation passes, the video is saved, and the transcript, which needs
    a location it can index, is reported as failed. *)
Example odd_values_run :
  let '(response, w') := verify_endpoint Sample.lib Sample.odd_values Sample.fresh in
  status_of response = 200 /\
  json_field "video_saved_as" response
    = Some (JStr "mobile_liveness_None_20240307_120000.mp4") /\
  json_field "data_saved_as" response = Some (JStr "failed").
Proof. vm_compute. repeat split. Qed.

(** * Witnesses of the further properties *)

Lemma slash_valid :
  valid_submission Cases.lib Cases.slash Cases.slash_fields Sample.clip.
Proof.
  constructor; try reflexivity.
  - exists (Sample.dumps (JObj Cases.slash_fields)).
    split; [reflexivity | vm_compute; reflexivity].
  - sample_keys.
  - discriminate.
Defined.

Lemma second_valid :
  valid_submission Sample.lib Cases.second Sample.good_fields Cases.clip2.
Proof.
  constructor; try reflexivity.
  - exists (Sample.dumps (JObj Sample.good_fields)).
    split; [reflexivity | vm_compute; reflexivity].
  - sample_keys.
  - discriminate.
Defined.

Lemma post_status_and_rejection_witness :
  (status_of (fst (verify_endpoint Sample.lib Sample.short Sample.fresh)) = 200 \/
   status_of (fst (verify_endpoint Sample.lib Sample.short Sample.fresh)) = 400 \/
   status_of (fst (verify_endpoint Sample.lib Sample.short Sample.fresh)) = 500) /\
  (status_of (fst (verify_endpoint Sample.lib Sample.short Sample.fresh)) = 400 ->
   snd (verify_endpoint Sample.lib Sample.short Sample.fresh) = Sample.fresh) /\
  (status_of (fst (verify_endpoint Sample.lib Sample.short Sample.fresh)) = 500 ->
   json_field "error" (fst (verify_endpoint Sample.lib Sample.short Sample.fresh))
   = Some (JStr "Internal server error")).
Proof.
  apply (post_status_and_rejection Sample.lib Sample.short Sample.fresh).
  reflexivity.
Defined.

Lemma acknowledged_means_persisted_witness :
  exists video_file name mtime,
    multidict_get "liveness_video" (files Sample.good) = Some video_file /\
    json_field "video_saved_as" (fst (verify_endpoint Sample.lib Sample.good Sample.fresh))
      = Some (JStr name) /\
    store (snd (verify_endpoint Sample.lib Sample.good Sample.fresh))
      !! os_path_join UPLOAD_DIR name
      = Some (File (data (stream video_file)) mtime).
Proof.
  apply (acknowledged_means_persisted Sample.lib Sample.good Sample.fresh).
  - reflexivity.
  - apply surjective_pairing.
  - vm_compute. reflexivity.
Defined.

Lemma only_objects_are_acknowledged_witness :
  status_of (fst (verify_endpoint Sample.lib Sample.number Sample.fresh)) <> 200 /\
  snd (verify_endpoint Sample.lib Sample.number Sample.fresh) = Sample.fresh.
Proof.
  apply (only_objects_are_acknowledged Sample.lib Sample.number Sample.fresh "5" (JInt 5)).
  - reflexivity.
  - reflexivity.
  - vm_compute. reflexivity.
  - discriminate.
Defined.

Lemma missing_parts_are_rejected_witness :
  verify_endpoint Sample.lib Cases.no_data Sample.fresh
  = (JsonResponse 400 (error_body "Missing 'data' part"), Sample.fresh).
Proof.
  apply (proj1 (missing_parts_are_rejected Sample.lib Cases.no_data Sample.fresh
                  eq_refl eq_refl)).
  reflexivity.
Defined.

Lemma failed_video_save_is_internal_error_witness :
  exists e w',
    verify_endpoint Sample.lib Sample.good Cases.no_upload_dir
      = (internal_error Sample.lib e, w') /\
    forall q,
      q <> video_path Sample.lib (JStr "abc123")
             (strftime_stamp (clock Cases.no_upload_dir (tick Cases.no_upload_dir))) ->
      store w' !! q = store Cases.no_upload_dir !! q.
Proof.
  apply (failed_video_save_is_internal_error Sample.lib Sample.good Sample.good_fields
           Sample.clip (JStr "abc123") Cases.no_upload_dir).
  - exact good_valid.
  - reflexivity.
  - intros p H. cbn [store Cases.no_upload_dir] in H. rewrite lookup_empty in H.
    discriminate H.
  - vm_compute. reflexivity.
Defined.

Lemma separator_in_device_id_is_internal_error_witness :
  exists e w',
    verify_endpoint Cases.lib Cases.slash Sample.fresh = (internal_error Cases.lib e, w') /\
    store w' = store Sample.fresh.
Proof.
  apply (separator_in_device_id_is_internal_error Cases.lib Cases.slash Cases.slash_fields
           Sample.clip (JStr "a/b") Sample.fresh).
  - exact slash_valid.
  - reflexivity.
  - exact fresh_flat.
  - reflexivity.
Defined.

Lemma busy_flat : flat (store Cases.busy).
Proof.
  intros p H. cbn [store Cases.busy] in H.
  apply lookup_insert_Some in H as [[<- _]|[_ H]]; [reflexivity|].
  apply lookup_singleton_Some in H as [_ [=]].
Defined.

Lemma submission_stays_in_its_families_witness :
  (forall q, starts_with "uploads/mobile_liveness_" q = false ->
             starts_with "uploads/device_data_" q = false ->
             store (snd (verify_endpoint Sample.lib Sample.good Cases.busy)) !! q
             = store Cases.busy !! q) /\
  (forall p, is_file (store Cases.busy) p = true ->
             is_file (store (snd (verify_endpoint Sample.lib Sample.good Cases.busy))) p
             = true).
Proof.
  apply (submission_stays_in_its_families Sample.lib Sample.good Cases.busy).
  - reflexivity.
  - exact busy_flat.
Defined.


Lemma other_keys_are_left_alone_witness :
  store (snd (verify_endpoint Sample.lib Sample.good Sample.fresh))
    !! video_path Sample.lib (JStr "other") (strftime_stamp (Sample.noon 0))
  = store Sample.fresh !! video_path Sample.lib (JStr "other") (strftime_stamp (Sample.noon 0)) /\
  store (snd (verify_endpoint Sample.lib Sample.good Sample.fresh))
    !! transcript_path Sample.lib (JStr "other") (strftime_stamp (Sample.noon 0))
  = store Sample.fresh
      !! transcript_path Sample.lib (JStr "other") (strftime_stamp (Sample.noon 0)).
Proof.
  apply (other_keys_are_left_alone Sample.lib Sample.good Sample.good_fields Sample.clip
           (JStr "abc123") (JStr "other") (Sample.noon 0) Sample.fresh).
  - exact good_valid.
  - reflexivity.
  - exact fresh_flat.
  - left. vm_compute. discriminate.
Defined.

Lemma same_key_overwrites_witness :
  exists mtime1 mtime2,
    json_field "video_saved_as" (fst (verify_endpoint Sample.lib Sample.good Cases.frozen))
    = json_field "video_saved_as"
        (fst (verify_endpoint Sample.lib Cases.second
                (snd (verify_endpoint Sample.lib Sample.good Cases.frozen)))) /\
    store (snd (verify_endpoint Sample.lib Sample.good Cases.frozen))
      !! video_path Sample.lib (JStr "abc123")
           (strftime_stamp (clock Cases.frozen (tick Cases.frozen)))
    = Some (File (data (stream Sample.clip)) mtime1) /\
    store (snd (verify_endpoint Sample.lib Cases.second
                  (snd (verify_endpoint Sample.lib Sample.good Cases.frozen))))
      !! video_path Sample.lib (JStr "abc123")
           (strftime_stamp (clock Cases.frozen (tick Cases.frozen)))
    = Some (File (data (stream Cases.clip2)) mtime2).
Proof.
  apply (same_key_overwrites Sample.lib Sample.good Cases.second Sample.good_fields
           Sample.good_fields Sample.clip Cases.clip2 (JStr "abc123") (JStr "abc123")
           Cases.frozen).
  - exact good_valid.
  - exact second_valid.
  - reflexivity.
  - reflexivity.
  - reflexivity.
  - vm_compute. reflexivity.
  - vm_compute. reflexivity.
  - vm_compute. reflexivity.
Defined.


Lemma transcript_needs_every_field_witness :
  exists fields device_id compromised ip gps latitude longitude,
    JObj Sample.good_fields = JObj fields /\
    dict_lookup "device_id" fields = Some device_id /\
    dict_lookup "is_compromised" fields = Some compromised /\
    dict_lookup "ip_address" fields = Some ip /\
    dict_lookup "gps_location" fields = Some gps /\
    py_getitem gps "latitude" = Ok latitude /\
    py_getitem gps "longitude" = Ok longitude /\
    "uploads/" +:+ good_transcript = transcript_path Sample.lib device_id good_stamp.
Proof.
  apply (transcript_needs_every_field Sample.lib (JObj Sample.good_fields) "clip.mp4" 10
           good_stamp good_saved good_written ("uploads/" +:+ good_transcript)).
  vm_compute. reflexivity.
Defined.

Lemma acknowledged_video_is_listed_witness :
  exists files mtime,
    json_field "video_saved_as" (fst (verify_endpoint Sample.lib Sample.good Sample.fresh))
      = Some (JStr (video_name Sample.lib (JStr "abc123")
                      (strftime_stamp (clock Sample.fresh (tick Sample.fresh))))) /\
    fst (list_files Sample.lib (snd (verify_endpoint Sample.lib Sample.good Sample.fresh)))
      = JsonResponse 200 (JObj [("files", JArr files);
                                ("count", JInt (Z.of_nat (length files)))]) /\
    listing_entry (video_name Sample.lib (JStr "abc123")
                     (strftime_stamp (clock Sample.fresh (tick Sample.fresh))))
      (data (stream Sample.clip)) mtime ∈ files.
Proof.
  apply (acknowledged_video_is_listed Sample.lib Sample.good Sample.good_fields Sample.clip
           (JStr "abc123") Sample.fresh).
  - exact good_valid.
  - reflexivity.
  - vm_compute. reflexivity.
  - exact fresh_flat.
  - vm_compute. reflexivity.
  - vm_compute. reflexivity.
Defined.

Lemma start_creates_upload_dir_once_witness :
  exists w',
    create_upload_dir Sample.lib Cases.no_upload_dir = (Ok tt, w') /\
    os_path_exists (store w') UPLOAD_DIR = true /\
    (forall q, q <> UPLOAD_DIR -> store w' !! q = store Cases.no_upload_dir !! q) /\
    (store Cases.no_upload_dir !! UPLOAD_DIR = None ->
     store w' !! UPLOAD_DIR = Some Directory) /\
    (os_path_exists (store Cases.no_upload_dir) UPLOAD_DIR = true ->
     w' = Cases.no_upload_dir) /\
    create_upload_dir Sample.lib w' = (Ok tt, w').
Proof.
  apply (start_creates_upload_dir_once Sample.lib Cases.no_upload_dir).
  reflexivity.
Defined.
